(** * Sony IMX415 sensor driver

    Shallow embedding of [src/modules/imx415/imx415.c]: the register access
    helpers, the mode catalogue and its best-fit selection, the control
    handler [imx415_set_ctrl] and the streaming switch [imx415_s_stream],
    followed by the properties of the driver that are established here.

    Integers are kept in [Z]; every place where the C code computes in a
    fixed-width type carries the wrap-around explicitly ([u32], [s32]). *)

From Stdlib Require Import ZArith List Bool Lia.
Import ListNotations.
Local Open Scope Z_scope.

(** ** Fixed-width arithmetic *)

Definition u32 (x : Z) : Z := x mod 2 ^ 32.

Definition s32 (x : Z) : Z :=
  let y := x mod 2 ^ 32 in if y <? 2 ^ 31 then y else y - 2 ^ 32.

Definition BIT (n : Z) : Z := Z.shiftl 1 n.

(** Error numbers of the kernel, as the driver returns them (negated). *)
Definition EIO : Z := 5.
Definition EINVAL : Z := 22.
Definition ENOTTY : Z := 25.
Definition ERANGE : Z := 34.
Definition EREMOTEIO : Z := 121.

(** ** The environment of the driver

    The driver reaches the sensor through the I2C core and asks the runtime
    power management core whether the device is powered.  Both are outside
    the driver; they are modelled as a scripted environment: [script] holds
    the outcome of every bus transaction still to come, [rpm_script] the
    return value of every runtime-PM "get" still to come.  An exhausted
    script answers with success.  [wire] records what the functions modelled
    here put on the bus, oldest transaction first; what the PM core does on
    its own account when asked to resume the device (it runs the driver's
    power-on callback) is not part of the model. *)

Inductive i2c_xfer : Type :=
| Send (buf : list Z)
| ReadAt (addr : list Z) (len : Z).

Inductive i2c_reply : Type :=
| Ack (data : Z)
| Nack.

Record world : Type := mkWorld {
  wire : list i2c_xfer;
  script : list i2c_reply;
  rpm_script : list Z;
  rpm_usage : Z
}.

Definition next_reply (w : world) : i2c_reply := hd (Ack 0) (script w).

Definition rpm_next (w : world) : Z := hd 1 (rpm_script w).

Definition transact (x : i2c_xfer) (w : world) : world :=
  mkWorld (wire w ++ [x]) (tl (script w)) (rpm_script w) (rpm_usage w).

(** [i2c_master_send] returns the number of bytes sent, or a negative error. *)
Definition i2c_master_send (buf : list Z) (w : world) : world * Z :=
  match next_reply w with
  | Ack _ => (transact (Send buf) w, Z.of_nat (length buf))
  | Nack => (transact (Send buf) w, - EREMOTEIO)
  end.

(** [i2c_transfer] of the two messages of a register read: the number of
    messages completed and the bytes read, as one big-endian number. *)
Definition i2c_transfer (addr : list Z) (len : Z) (w : world) : world * Z * Z :=
  match next_reply w with
  | Ack data => (transact (ReadAt addr len) w, 2, data mod 2 ^ (8 * len))
  | Nack => (transact (ReadAt addr len) w, - EREMOTEIO, 0)
  end.

(** Runtime PM: [pm_runtime_get] and [pm_runtime_get_sync] raise the usage
    counter whatever they return; the "put" calls lower it. *)
Definition pm_runtime_get (w : world) : world * Z :=
  (mkWorld (wire w) (script w) (tl (rpm_script w)) (rpm_usage w + 1), rpm_next w).

Definition pm_runtime_get_sync (w : world) : world * Z := pm_runtime_get w.

Definition pm_runtime_put (w : world) : world :=
  mkWorld (wire w) (script w) (rpm_script w) (rpm_usage w - 1).

Definition pm_runtime_put_noidle (w : world) : world := pm_runtime_put w.

(** ** Register map *)

Definition IMX415_REG_STANDBY : Z := 0x3000.
Definition IMX415_LF_GAIN_REG_H : Z := 0x3091.
Definition IMX415_LF_GAIN_REG_L : Z := 0x3090.
Definition IMX415_LF_EXPO_REG_H : Z := 0x3052.
Definition IMX415_LF_EXPO_REG_M : Z := 0x3051.
Definition IMX415_LF_EXPO_REG_L : Z := 0x3050.
Definition IMX415_EXPOSURE_MIN : Z := 8.
Definition IMX415_EXPOSURE_STEP : Z := 1.
Definition IMX415_VTS_MAX : Z := 0x7fff.
Definition IMX415_VTS_REG_L : Z := 0x3024.
Definition IMX415_VTS_REG_M : Z := 0x3025.
Definition IMX415_VTS_REG_H : Z := 0x3026.
Definition IMX415_MIRROR_BIT_MASK : Z := BIT 0.
Definition IMX415_FLIP_BIT_MASK : Z := BIT 1.
Definition IMX415_FLIP_REG : Z := 0x3030.
Definition REG_NULL : Z := 0xFFFF.
Definition IMX415_REG_VALUE_08BIT : Z := 1.
Definition IMX415_PIXEL_ARRAY_WIDTH : Z := 3864.
Definition IMX415_PIXEL_ARRAY_HEIGHT : Z := 2192.

Definition IMX415_FETCH_GAIN_H (v : Z) : Z := Z.land (Z.shiftr v 8) 0x07.
Definition IMX415_FETCH_GAIN_L (v : Z) : Z := Z.land v 0xFF.
Definition IMX415_FETCH_EXP_H (v : Z) : Z := Z.land (Z.shiftr v 16) 0x0F.
Definition IMX415_FETCH_EXP_M (v : Z) : Z := Z.land (Z.shiftr v 8) 0xFF.
Definition IMX415_FETCH_EXP_L (v : Z) : Z := Z.land v 0xFF.
Definition IMX415_FETCH_VTS_H (v : Z) : Z := Z.land (Z.shiftr v 16) 0x0F.
Definition IMX415_FETCH_VTS_M (v : Z) : Z := Z.land (Z.shiftr v 8) 0xFF.
Definition IMX415_FETCH_VTS_L (v : Z) : Z := Z.land v 0xFF.

Record imx415_regval : Type := RV { reg : Z; val : Z }.

(** ** Register access *)

(** The four bytes of [cpu_to_be32 v], most significant first. *)
Definition cpu_to_be32 (v : Z) : list Z :=
  [ Z.land (Z.shiftr v 24) 0xff; Z.land (Z.shiftr v 16) 0xff;
    Z.land (Z.shiftr v 8) 0xff; Z.land v 0xff ].

(** Read registers up to 4 at a time.  [old] is what the caller's variable
    holds before the call; the result is the return code and what the
    variable holds afterwards, which is [old] again unless the read succeeded. *)
Definition imx415_read_reg (r len old : Z) (w : world) : world * Z * Z :=
  if (4 <? len) || (len =? 0) then (w, - EINVAL, old)
  else
    let reg_addr_be := [Z.land (Z.shiftr r 8) 0xff; Z.land r 0xff] in
    let '(w', ret, data) := i2c_transfer reg_addr_be len w in
    if negb (ret =? 2) then (w', - EIO, old) else (w', 0, data).

(** Write registers up to 4 at a time: the buffer is the 16-bit address
    followed by the last [len] bytes of the big-endian value. *)
Definition imx415_write_reg (r len v : Z) (w : world) : world * Z :=
  if 4 <? len then (w, - EINVAL)
  else
    let buf := [Z.land (Z.shiftr r 8) 0xff; Z.land r 0xff]
               ++ skipn (Z.to_nat (4 - len)) (cpu_to_be32 v) in
    let '(w', sent) := i2c_master_send buf w in
    if negb (sent =? len + 2) then (w', - EIO) else (w', 0).

(** A C array read through an index: running past its last element is
    undefined behaviour, kept apart from every defined result. *)
Inductive outcome (A : Type) : Type :=
| Done (a : A)
| Overrun.
Arguments Done {A} a.
Arguments Overrun {A}.

(** [for (i = 0; ret == 0 && regs[i].reg != REG_NULL; i++) ret = write(...)]:
    the list is the array from index [i] on; the test [ret == 0] comes first,
    so after a failed write no further element is read. *)
Fixpoint imx415_write_array (regs : list imx415_regval) (w : world)
  : outcome (world * Z) :=
  match regs with
  | [] => Overrun
  | e :: rest =>
      if reg e =? REG_NULL then Done (w, 0)
      else
        let '(w', ret) := imx415_write_reg (reg e) IMX415_REG_VALUE_08BIT (val e) w in
        if ret =? 0 then imx415_write_array rest w' else Done (w', ret)
  end.

(** ** Register tables and the mode catalogue *)

Definition imx415_common_regs : list imx415_regval :=
  [ RV 0x32D4 0x21; RV 0x32EC 0xA1; RV 0x3452 0x7F; RV 0x3453 0x03;
    RV 0x358A 0x04; RV 0x35A1 0x02; RV 0x36BC 0x0C; RV 0x36CC 0x53;
    RV 0x36CD 0x00; RV 0x36CE 0x3C; RV 0x36D0 0x8C; RV 0x36D1 0x00;
    RV 0x36D2 0x71; RV 0x36D4 0x3C; RV 0x36D6 0x53; RV 0x36D7 0x00;
    RV 0x36D8 0x71; RV 0x36DA 0x8C; RV 0x36DB 0x00; RV 0x3701 0x00;
    RV 0x3724 0x02; RV 0x3726 0x02; RV 0x3732 0x02; RV 0x3734 0x03;
    RV 0x3736 0x03; RV 0x3742 0x03; RV 0x3862 0xE0; RV 0x38CC 0x30;
    RV 0x38CD 0x2F; RV 0x395C 0x0C; RV 0x3A42 0xD1; RV 0x3A4C 0x77;
    RV 0x3AE0 0x02; RV 0x3AEC 0x0C; RV 0x3B00 0x2E; RV 0x3B06 0x29;
    RV 0x3B98 0x25; RV 0x3B99 0x21; RV 0x3B9B 0x13; RV 0x3B9C 0x13;
    RV 0x3B9D 0x13; RV 0x3B9E 0x13; RV 0x3BA1 0x00; RV 0x3BA2 0x06;
    RV 0x3BA3 0x0B; RV 0x3BA4 0x10; RV 0x3BA5 0x14; RV 0x3BA6 0x18;
    RV 0x3BA7 0x1A; RV 0x3BA8 0x1A; RV 0x3BA9 0x1A; RV 0x3BAC 0xED;
    RV 0x3BAD 0x01; RV 0x3BAE 0xF6; RV 0x3BAF 0x02; RV 0x3BB0 0xA2;
    RV 0x3BB1 0x03; RV 0x3BB2 0xE0; RV 0x3BB3 0x03; RV 0x3BB4 0xE0;
    RV 0x3BB5 0x03; RV 0x3BB6 0xE0; RV 0x3BB7 0x03; RV 0x3BB8 0xE0;
    RV 0x3BBA 0xE0; RV 0x3BBC 0xDA; RV 0x3BBE 0x88; RV 0x3BC0 0x44;
    RV 0x3BC2 0x7B; RV 0x3BC4 0xA2; RV 0x3BC8 0xBD; RV 0x3BCA 0xBD ].

Definition imx415_linear_10bit_3864x2192_891M_regs : list imx415_regval :=
  [ RV 0x3002 0x00; RV 0x3008 0x7F; RV 0x300A 0x5B; RV 0x3028 0x98;
    RV 0x3029 0x08; RV 0x3031 0x00; RV 0x3032 0x00; RV 0x3033 0x05;
    RV 0x3050 0x08; RV 0x30C1 0x00; RV 0x3116 0x24; RV 0x311E 0x24;
    RV 0x4004 0x48; RV 0x4005 0x09; RV 0x400C 0x00; RV 0x4018 0x7F;
    RV 0x401A 0x37; RV 0x401C 0x37; RV 0x401E 0xF7; RV 0x401F 0x00;
    RV 0x4020 0x3F; RV 0x4022 0x6F; RV 0x4024 0x3F; RV 0x4026 0x5F;
    RV 0x4028 0x2F; RV 0x4074 0x01; RV REG_NULL 0x00 ].

(** [MEDIA_BUS_FMT_SGBRG10_1X10] of the kernel's media-bus-format header. *)
Definition MEDIA_BUS_FMT_SGBRG10_1X10 : Z := 0x300e.

Record imx415_mode : Type := mkMode {
  bus_fmt : Z;
  width : Z;
  height : Z;
  max_fps : Z * Z;
  hts_def : Z;
  vts_def : Z;
  exp_def : Z;
  mipi_freq_idx : Z;
  bpp : Z;
  reg_list : list imx415_regval;
  data_size : Z
}.

(** The single entry of the catalogue, [supported_modes[0]]. *)
Definition mode_3864x2192 : imx415_mode :=
  {| bus_fmt := MEDIA_BUS_FMT_SGBRG10_1X10;
     bpp := 10;
     width := IMX415_PIXEL_ARRAY_WIDTH;
     height := IMX415_PIXEL_ARRAY_HEIGHT;
     exp_def := 0x08fc - 0x08;
     hts_def := 0x044c * 2 * 2;
     vts_def := 0x08fc;
     mipi_freq_idx := 0;
     max_fps := (10000, 300000);
     reg_list := imx415_linear_10bit_3864x2192_891M_regs;
     data_size := Z.of_nat (length imx415_linear_10bit_3864x2192_891M_regs) |}.

Definition supported_modes : list imx415_mode := [ mode_3864x2192 ].

(** ** Mode selection *)

Record v4l2_mbus_framefmt : Type := mkFmt {
  f_width : Z;
  f_height : Z;
  f_code : Z
}.

(** The kernel's [abs()] on an [unsigned int]: the operand is converted to
    [int] and negated when negative. *)
Definition abs_int (x : Z) : Z :=
  let sx := s32 x in if sx <? 0 then s32 (- sx) else sx.

Definition imx415_get_reso_dist (mode : imx415_mode) (framefmt : v4l2_mbus_framefmt) : Z :=
  s32 (abs_int (u32 (width mode - f_width framefmt))
       + abs_int (u32 (height mode - f_height framefmt))).

(** The loop of [imx415_find_best_fit]; [modes] is the catalogue from index
    [i] on, and the result is the final [cur_best_fit]. *)
Fixpoint find_best_fit_from (modes : list imx415_mode) (i n : Z)
    (framefmt : v4l2_mbus_framefmt) (cur_best_fit cur_best_fit_dist : Z)
  : outcome Z :=
  if i <? n then
    match modes with
    | [] => Overrun
    | m :: rest =>
        let dist := imx415_get_reso_dist m framefmt in
        if ((cur_best_fit_dist =? -1) || (dist <=? cur_best_fit_dist))
           && (bus_fmt m =? f_code framefmt)
        then find_best_fit_from rest (i + 1) n framefmt i dist
        else find_best_fit_from rest (i + 1) n framefmt cur_best_fit cur_best_fit_dist
    end
  else Done cur_best_fit.

(** ** Controls

    A control as the V4L2 control framework keeps it.  The framework is
    kernel code that the driver calls; what is needed of it is written out
    here after [v4l2-ctrls]: [check_range], the rounding of a value into the
    range, and [__v4l2_ctrl_modify_range], which refuses an invalid range,
    otherwise installs it, brings the current value into it and, when that
    changed the value, hands the new value to the driver's [s_ctrl] and keeps
    it only if the driver returns 0. *)

Record v4l2_ctrl : Type := mkCtrl {
  minimum : Z;
  maximum : Z;
  step : Z;
  default_value : Z;
  cur_val : Z
}.

Definition check_range (min max stp def : Z) : Z :=
  if (stp =? 0) || (max <? min) || (def <? min) || (max <? def)
  then - ERANGE else 0.

Definition clamp (v lo hi : Z) : Z := Z.min (Z.max v lo) hi.

Definition ROUND_TO_RANGE (v : Z) (c : v4l2_ctrl) : Z :=
  let v1 := if (0 <=? maximum c) && (maximum c - step c / 2 <=? v)
            then maximum c else v + step c / 2 in
  let v2 := clamp v1 (minimum c) (maximum c) in
  let offset := step c * ((v2 - minimum c) / step c) in
  minimum c + offset.

Section ModifyRange.
Context {S : Type}.
Variable get : S -> v4l2_ctrl.
Variable put : v4l2_ctrl -> S -> S.
(** the driver's handler for this control, called with [ctrl->val] *)
Variable s_ctrl : Z -> S -> S * Z.

Definition __v4l2_ctrl_modify_range (min max stp def : Z) (st : S) : S * Z :=
  let rc := check_range min max stp def in
  if negb (rc =? 0) then (st, rc)
  else
    let c := mkCtrl min max stp def (cur_val (get st)) in
    let st1 := put c st in
    let new := ROUND_TO_RANGE (cur_val c) c in
    if new =? cur_val c then (st1, 0)
    else
      let '(st2, ret) := s_ctrl new st1 in
      if negb (ret =? 0) then (st2, ret)
      else
        let c2 := get st2 in
        (put (mkCtrl (minimum c2) (maximum c2) (step c2) (default_value c2) new) st2, 0).
End ModifyRange.

Inductive ctrl_id : Type :=
| V4L2_CID_EXPOSURE
| V4L2_CID_ANALOGUE_GAIN
| V4L2_CID_VBLANK
| V4L2_CID_HFLIP
| V4L2_CID_VFLIP
| V4L2_CID_HBLANK
| V4L2_CID_PIXEL_RATE.

(** ** The device session ([struct imx415]) *)

Record imx415 : Type := mkImx415 {
  nlanes : Z;
  cur_mode : imx415_mode;
  streaming : bool;
  power_on : bool;
  cfg_num : Z;
  cur_vts : Z;
  hblank : v4l2_ctrl;
  vblank : v4l2_ctrl;
  exposure : v4l2_ctrl
}.

Definition set_cur_mode (m : imx415_mode) (s : imx415) : imx415 :=
  mkImx415 (nlanes s) m (streaming s) (power_on s) (cfg_num s) (cur_vts s)
           (hblank s) (vblank s) (exposure s).

Definition set_streaming (b : bool) (s : imx415) : imx415 :=
  mkImx415 (nlanes s) (cur_mode s) b (power_on s) (cfg_num s) (cur_vts s)
           (hblank s) (vblank s) (exposure s).

Definition set_cur_vts (v : Z) (s : imx415) : imx415 :=
  mkImx415 (nlanes s) (cur_mode s) (streaming s) (power_on s) (cfg_num s) v
           (hblank s) (vblank s) (exposure s).

Definition set_hblank (c : v4l2_ctrl) (s : imx415) : imx415 :=
  mkImx415 (nlanes s) (cur_mode s) (streaming s) (power_on s) (cfg_num s) (cur_vts s)
           c (vblank s) (exposure s).

Definition set_vblank (c : v4l2_ctrl) (s : imx415) : imx415 :=
  mkImx415 (nlanes s) (cur_mode s) (streaming s) (power_on s) (cfg_num s) (cur_vts s)
           (hblank s) c (exposure s).

Definition set_exposure (c : v4l2_ctrl) (s : imx415) : imx415 :=
  mkImx415 (nlanes s) (cur_mode s) (streaming s) (power_on s) (cfg_num s) (cur_vts s)
           (hblank s) (vblank s) c.

(** The driver and its environment together. *)
Definition dev : Type := (imx415 * world)%type.

Definition find_best_fit_in (catalog : list imx415_mode) (s : imx415)
    (framefmt : v4l2_mbus_framefmt) : outcome imx415_mode :=
  match find_best_fit_from catalog 0 (cfg_num s) framefmt 0 (-1) with
  | Overrun => Overrun
  | Done k =>
      match nth_error catalog (Z.to_nat k) with
      | Some m => Done m
      | None => Overrun
      end
  end.

Definition imx415_find_best_fit (s : imx415) (framefmt : v4l2_mbus_framefmt)
  : outcome imx415_mode :=
  find_best_fit_in supported_modes s framefmt.

Definition imx415_change_mode (mode : imx415_mode) (s : imx415) : imx415 :=
  set_cur_vts (vts_def mode) (set_cur_mode mode s).

(** ** The control handler *)

(** Lines 896 to 972 of [imx415_set_ctrl]: the power check and the switch
    that programs the registers. *)
Definition imx415_set_ctrl_regs (id : ctrl_id) (v : Z) (st : dev) : dev * Z :=
  let '(s, w0) := st in
  let '(w, pm) := pm_runtime_get w0 in
  if pm <=? 0 then ((s, w), 0)
  else
    let '(s', w', ret) :=
      match id with
      | V4L2_CID_EXPOSURE =>
          let shr0 := u32 (cur_vts s - v) in
          let '(w1, r1) := imx415_write_reg IMX415_LF_EXPO_REG_L IMX415_REG_VALUE_08BIT
                             (IMX415_FETCH_EXP_L shr0) w in
          let '(w2, r2) := imx415_write_reg IMX415_LF_EXPO_REG_M IMX415_REG_VALUE_08BIT
                             (IMX415_FETCH_EXP_M shr0) w1 in
          let '(w3, r3) := imx415_write_reg IMX415_LF_EXPO_REG_H IMX415_REG_VALUE_08BIT
                             (IMX415_FETCH_EXP_H shr0) w2 in
          (s, w3, Z.lor (Z.lor r1 r2) r3)
      | V4L2_CID_ANALOGUE_GAIN =>
          let '(w1, r1) := imx415_write_reg IMX415_LF_GAIN_REG_H IMX415_REG_VALUE_08BIT
                             (IMX415_FETCH_GAIN_H v) w in
          let '(w2, r2) := imx415_write_reg IMX415_LF_GAIN_REG_L IMX415_REG_VALUE_08BIT
                             (IMX415_FETCH_GAIN_L v) w1 in
          (s, w2, Z.lor r1 r2)
      | V4L2_CID_VBLANK =>
          let vts := u32 (v + height (cur_mode s)) in
          let s1 := set_cur_vts vts s in
          let '(w1, r1) := imx415_write_reg IMX415_VTS_REG_L IMX415_REG_VALUE_08BIT
                             (IMX415_FETCH_VTS_L vts) w in
          let '(w2, r2) := imx415_write_reg IMX415_VTS_REG_M IMX415_REG_VALUE_08BIT
                             (IMX415_FETCH_VTS_M vts) w1 in
          let '(w3, r3) := imx415_write_reg IMX415_VTS_REG_H IMX415_REG_VALUE_08BIT
                             (IMX415_FETCH_VTS_H vts) w2 in
          (s1, w3, Z.lor (Z.lor r1 r2) r3)
      | V4L2_CID_HFLIP =>
          let '(w1, r1, rd) := imx415_read_reg IMX415_FLIP_REG IMX415_REG_VALUE_08BIT 0 w in
          if negb (r1 =? 0) then (s, w1, r1)
          else
            let rd' := if negb (v =? 0)
                       then u32 (Z.lor rd IMX415_MIRROR_BIT_MASK)
                       else u32 (Z.land rd (Z.lnot IMX415_MIRROR_BIT_MASK)) in
            let '(w2, r2) := imx415_write_reg IMX415_FLIP_REG IMX415_REG_VALUE_08BIT rd' w1 in
            (s, w2, r2)
      | V4L2_CID_VFLIP =>
          let '(w1, r1, rd) := imx415_read_reg IMX415_FLIP_REG IMX415_REG_VALUE_08BIT 0 w in
          if negb (r1 =? 0) then (s, w1, r1)
          else
            let rd' := if negb (v =? 0)
                       then u32 (Z.lor rd IMX415_FLIP_BIT_MASK)
                       else u32 (Z.land rd (Z.lnot IMX415_FLIP_BIT_MASK)) in
            let '(w2, r2) := imx415_write_reg IMX415_FLIP_REG IMX415_REG_VALUE_08BIT rd' w1 in
            (s, w2, r2)
      | _ => (s, w, 0)
      end in
    ((s', pm_runtime_put w'), ret).

Definition dev_exposure (st : dev) : v4l2_ctrl := exposure (fst st).
Definition dev_set_exposure (c : v4l2_ctrl) (st : dev) : dev :=
  (set_exposure c (fst st), snd st).

(** Lines 884 to 894: a change of the vertical blanking is propagated to the
    range of the exposure control.  The handler the framework may call back
    for the exposure control is [imx415_set_ctrl] itself, whose first switch
    does nothing for that control. *)
Definition imx415_set_ctrl_propagate (id : ctrl_id) (v : Z) (st : dev) : dev :=
  match id with
  | V4L2_CID_VBLANK =>
      let s := fst st in
      let max := u32 (height (cur_mode s) + v - 4) in
      fst (__v4l2_ctrl_modify_range dev_exposure dev_set_exposure
             (imx415_set_ctrl_regs V4L2_CID_EXPOSURE)
             (minimum (exposure s)) max (step (exposure s))
             (default_value (exposure s)) st)
  | _ => st
  end.

Definition imx415_set_ctrl (id : ctrl_id) (v : Z) (st : dev) : dev * Z :=
  imx415_set_ctrl_regs id v (imx415_set_ctrl_propagate id v st).

(** ** Format selection ([imx415_set_fmt]) *)

Inductive v4l2_subdev_format_whence : Type :=
| V4L2_SUBDEV_FORMAT_TRY
| V4L2_SUBDEV_FORMAT_ACTIVE.

Definition dev_hblank (st : dev) : v4l2_ctrl := hblank (fst st).
Definition dev_set_hblank (c : v4l2_ctrl) (st : dev) : dev :=
  (set_hblank c (fst st), snd st).
Definition dev_vblank (st : dev) : v4l2_ctrl := vblank (fst st).
Definition dev_set_vblank (c : v4l2_ctrl) (st : dev) : dev :=
  (set_vblank c (fst st), snd st).

(** [subdev_api] tells whether the kernel was configured with
    [CONFIG_VIDEO_V4L2_SUBDEV_API]; the result carries the format handed back
    to the caller. *)
Definition imx415_set_fmt (subdev_api : bool) (which : v4l2_subdev_format_whence)
    (framefmt : v4l2_mbus_framefmt) (st : dev)
  : outcome (dev * v4l2_mbus_framefmt * Z) :=
  match imx415_find_best_fit (fst st) framefmt with
  | Overrun => Overrun
  | Done mode =>
      let fmt' := mkFmt (width mode) (height mode) (bus_fmt mode) in
      match which with
      | V4L2_SUBDEV_FORMAT_TRY =>
          if subdev_api then Done (st, fmt', 0) else Done (st, fmt', - ENOTTY)
      | V4L2_SUBDEV_FORMAT_ACTIVE =>
          let st1 := (imx415_change_mode mode (fst st), snd st) in
          let h_blank := u32 (hts_def mode - width mode) in
          let st2 := fst (__v4l2_ctrl_modify_range dev_hblank dev_set_hblank
                            (imx415_set_ctrl V4L2_CID_HBLANK)
                            h_blank h_blank 1 h_blank st1) in
          let vblank_def := u32 (vts_def mode - height mode) in
          let vblank_min := u32 (u32 (height mode + 46) - height mode) in
          let st3 := fst (__v4l2_ctrl_modify_range dev_vblank dev_set_vblank
                            (imx415_set_ctrl V4L2_CID_VBLANK)
                            vblank_min (u32 (IMX415_VTS_MAX - height mode))
                            1 vblank_def st2) in
          Done (st3, fmt', 0)
      end
  end.

(** ** Streaming *)

Definition __imx415_start_stream (s : imx415) (w : world) : outcome (world * Z) :=
  match imx415_write_array imx415_common_regs w with
  | Overrun => Overrun
  | Done (w1, ret) =>
      if negb (ret =? 0) then Done (w1, ret)
      else
        match imx415_write_array (reg_list (cur_mode s)) w1 with
        | Overrun => Overrun
        | Done (w2, ret2) =>
            if negb (ret2 =? 0) then Done (w2, ret2)
            else Done (imx415_write_reg IMX415_REG_STANDBY IMX415_REG_VALUE_08BIT 0 w2)
        end
  end.

Definition __imx415_stop_stream (s : imx415) (w : world) : world * Z :=
  imx415_write_reg IMX415_REG_STANDBY IMX415_REG_VALUE_08BIT 1 w.

Definition imx415_s_stream (on : Z) (st : dev) : outcome (dev * Z) :=
  let '(s, w) := st in
  let on' := negb (on =? 0) in
  if Bool.eqb on' (streaming s) then Done ((s, w), 0)
  else if on' then
    let '(w1, ret) := pm_runtime_get_sync w in
    if ret <? 0 then Done ((s, pm_runtime_put_noidle w1), ret)
    else
      match __imx415_start_stream s w1 with
      | Overrun => Overrun
      | Done (w2, ret2) =>
          if negb (ret2 =? 0) then Done ((s, pm_runtime_put w2), ret2)
          else Done ((set_streaming on' s, w2), ret2)
      end
  else
    let '(w1, _) := __imx415_stop_stream s w in
    Done ((set_streaming on' s, pm_runtime_put w1), 0).

(** ** The session after a successful probe

    [devm_kzalloc] zero-fills the structure; [imx415_probe] then sets the lane
    count and the current mode and creates the controls.  [cfg_num] and
    [cur_vts] are not assigned by it. *)
Definition imx415_probe_session (lanes : Z) : imx415 :=
  let mode := mode_3864x2192 in
  let h_blank := u32 (hts_def mode - width mode) in
  let v_blank := u32 (vts_def mode - height mode) in
  let exposure_max := u32 (vts_def mode - 4) in
  {| nlanes := lanes;
     cur_mode := mode;
     streaming := false;
     power_on := false;
     cfg_num := 0;
     cur_vts := 0;
     hblank := mkCtrl h_blank h_blank 1 h_blank h_blank;
     vblank := mkCtrl v_blank (u32 (IMX415_VTS_MAX - height mode)) 1 v_blank v_blank;
     exposure := mkCtrl IMX415_EXPOSURE_MIN exposure_max IMX415_EXPOSURE_STEP
                        (exp_def mode) (exp_def mode) |}.

(** An environment in which every transaction succeeds and the device is
    powered. *)
Definition quiet : world := mkWorld [] [] [] 0.

(** ** Further constants of the driver *)

Definition IMX415_REG_CHIP_ID : Z := 0x311A.
Definition IMX415_CHIP_ID : Z := 0xE0.
Definition IMX415_REG_LANE_MODE : Z := 0x4001.
Definition IMX415_GAIN_MIN : Z := 0x00.
Definition IMX415_GAIN_MAX : Z := 0xf0.
Definition IMX415_DEFAULT_LINK_FREQ : Z := 891000000.
Definition ENOMEM : Z := 12.

(** ** Enumeration and format queries *)

(** [old] is the code the caller's structure holds before the call. *)
Definition imx415_enum_mbus_code (index old : Z) (s : imx415) : Z * Z :=
  if negb (index =? 0) then (old, - EINVAL)
  else (bus_fmt (cur_mode s), 0).

Record v4l2_subdev_frame_size_enum : Type := mkFse {
  fse_index : Z;
  fse_code : Z;
  min_width : Z;
  max_width : Z;
  min_height : Z;
  max_height : Z
}.

Definition imx415_enum_frame_sizes (fse : v4l2_subdev_frame_size_enum) (s : imx415)
  : outcome (v4l2_subdev_frame_size_enum * Z) :=
  if cfg_num s <=? fse_index fse then Done (fse, - EINVAL)
  else
    match nth_error supported_modes (Z.to_nat (fse_index fse)) with
    | None => Overrun
    | Some m =>
        if negb (fse_code fse =? bus_fmt m) then Done (fse, - EINVAL)
        else Done (mkFse (fse_index fse) (fse_code fse)
                         (width m) (width m) (height m) (height m), 0)
    end.

Record v4l2_subdev_frame_interval_enum : Type := mkFie {
  fie_index : Z;
  fie_code : Z;
  fie_width : Z;
  fie_height : Z;
  fie_interval : Z * Z
}.

Definition imx415_enum_frame_interval (fie : v4l2_subdev_frame_interval_enum)
    (s : imx415) : outcome (v4l2_subdev_frame_interval_enum * Z) :=
  if cfg_num s <=? fie_index fie then Done (fie, - EINVAL)
  else
    match nth_error supported_modes (Z.to_nat (fie_index fie)) with
    | None => Overrun
    | Some m =>
        if negb (fie_code fie =? bus_fmt m) then Done (fie, - EINVAL)
        else Done (mkFie (fie_index fie) (fie_code fie)
                         (width m) (height m) (max_fps m), 0)
    end.

(** [try_fmt] is the try format kept in the caller's pad configuration,
    [old] the format the caller's structure holds before the call. *)
Definition imx415_get_fmt (subdev_api : bool) (which : v4l2_subdev_format_whence)
    (try_fmt old : v4l2_mbus_framefmt) (s : imx415) : v4l2_mbus_framefmt * Z :=
  let mode := cur_mode s in
  match which with
  | V4L2_SUBDEV_FORMAT_TRY =>
      if subdev_api then (try_fmt, 0) else (old, - ENOTTY)
  | V4L2_SUBDEV_FORMAT_ACTIVE =>
      (mkFmt (width mode) (height mode) (bus_fmt mode), 0)
  end.

Definition imx415_g_frame_interval (s : imx415) : (Z * Z) * Z :=
  (max_fps (cur_mode s), 0).

(** ** Lane configuration and identification *)

Definition imx415_set_data_lanes (s : imx415) (w : world) : world * Z :=
  let lane := if nlanes s =? 2 then Some 0x01
              else if nlanes s =? 4 then Some 0x03 else None in
  match lane with
  | None => (w, - EINVAL)
  | Some laneval =>
      let '(w1, ret) := imx415_write_reg IMX415_REG_LANE_MODE IMX415_REG_VALUE_08BIT
                          laneval w in
      if negb (ret =? 0) then (w1, ret)
      else
        let '(w2, ret2, relaneval) :=
          imx415_read_reg IMX415_REG_LANE_MODE IMX415_REG_VALUE_08BIT 0 w1 in
        (w2, ret2)
  end.

Definition imx415_identify_module (s : imx415) (w : world) : world * Z :=
  let '(w1, ret, v) := imx415_read_reg IMX415_REG_CHIP_ID IMX415_REG_VALUE_08BIT 0 w in
  if negb (ret =? 0) then (w1, ret)
  else if negb (v =? IMX415_CHIP_ID) then (w1, - EIO)
  else (w1, 0).

(** ** Power

    The board around the sensor: the bus environment, what the clock and
    regulator frameworks will answer to an enable request, how many times
    the clock and the supplies are currently enabled, the level of the reset
    line and the least time slept so far, in microseconds. *)
Record board : Type := mkBoard {
  io : world;
  clk_ret : Z;
  supplies_ret : Z;
  clk_on : Z;
  supplies_on : Z;
  rst_line : Z;
  slept_us : Z
}.

Definition imx415_power_on (s : imx415) (b : board) : board * Z :=
  let ret := clk_ret b in
  if negb (ret =? 0) then (b, ret)
  else
    let ret1 := supplies_ret b in
    if negb (ret1 =? 0)
    then (mkBoard (io b) (clk_ret b) (supplies_ret b) (clk_on b + 1 - 1)
                  (supplies_on b) (rst_line b) (slept_us b), ret1)
    else
      let '(w, ret2) := imx415_set_data_lanes s (io b) in
      (mkBoard w (clk_ret b) (supplies_ret b) (clk_on b + 1) (supplies_on b + 1)
               1 (slept_us b + 1 + 30000), ret2).

Definition imx415_power_off (s : imx415) (b : board) : board * Z :=
  (mkBoard (io b) (clk_ret b) (supplies_ret b) (clk_on b - 1) (supplies_on b - 1)
           0 (slept_us b), 0).

(** ** Probe and remove

    What the firmware description and the kernel frameworks answer during
    the probe. *)
Record probe_env : Type := mkProbeEnv {
  alloc_ok : bool;
  endpoint_found : bool;
  endpoint_parse_ret : Z;
  num_data_lanes : Z;
  nr_of_link_frequencies : Z;
  xclk_err : Z;
  clock_frequency_ret : Z;
  clock_frequency : Z;
  clk_set_rate_ret : Z;
  regulators_get_ret : Z;
  rst_gpio_err : Z;
  ctrls_error : Z;
  pads_init_ret : Z;
  async_register_ret : Z
}.

(** The board together with what the probe acquires from the kernel: live
    control handlers and mutexes, how often the parsed endpoint has been
    freed, initialised media entities, whether the sub-device is registered
    and whether runtime PM is enabled for it. *)
Record platform : Type := mkPlatform {
  brd : board;
  handlers : Z;
  mutexes : Z;
  endpoint_frees : Z;
  entities : Z;
  registered : bool;
  rpm_enabled : bool
}.

Definition err_free_err (p : platform) : platform :=
  mkPlatform (brd p) (handlers p) (mutexes p) (endpoint_frees p + 1)
             (entities p) (registered p) (rpm_enabled p).

Definition err_free_ctrl (p : platform) : platform :=
  err_free_err (mkPlatform (brd p) (handlers p - 1) (mutexes p - 1)
                           (endpoint_frees p) (entities p) (registered p)
                           (rpm_enabled p)).

Definition error_power_off (s : imx415) (p : platform) : platform :=
  err_free_ctrl (mkPlatform (fst (imx415_power_off s (brd p))) (handlers p)
                            (mutexes p) (endpoint_frees p) (entities p)
                            (registered p) (rpm_enabled p)).

Definition err_free_entity (s : imx415) (p : platform) : platform :=
  error_power_off s (mkPlatform (brd p) (handlers p) (mutexes p) (endpoint_frees p)
                                (entities p - 1) (registered p) (rpm_enabled p)).

(** The result is the return code and, when that is 0, the session. *)
Definition imx415_probe (e : probe_env) (p : platform) : platform * Z * option imx415 :=
  if negb (alloc_ok e) then (p, - ENOMEM, None)
  else if negb (endpoint_found e) then (p, - EINVAL, None)
  else if negb (endpoint_parse_ret e =? 0)
  then (err_free_err p, endpoint_parse_ret e, None)
  else if negb (num_data_lanes e =? 2) && negb (num_data_lanes e =? 4)
  then (err_free_err p, - EINVAL, None)
  else if nr_of_link_frequencies e =? 0
  then (err_free_err p, - EINVAL, None)
  else if negb (xclk_err e =? 0)
  then (err_free_err p, xclk_err e, None)
  else if negb (clock_frequency_ret e =? 0)
  then (err_free_err p, clock_frequency_ret e, None)
  else if negb (clock_frequency e =? 37125000) && negb (clock_frequency e =? 74250000)
  then (err_free_err p, - EINVAL, None)
  else if negb (clk_set_rate_ret e =? 0)
  then (err_free_err p, clk_set_rate_ret e, None)
  else if regulators_get_ret e <? 0
  then (err_free_err p, regulators_get_ret e, None)
  else if negb (rst_gpio_err e =? 0)
  then (err_free_err p, rst_gpio_err e, None)
  else
    let s := imx415_probe_session (num_data_lanes e) in
    let p1 := mkPlatform (brd p) (handlers p + 1) (mutexes p + 1) (endpoint_frees p)
                         (entities p) (registered p) (rpm_enabled p) in
    if negb (ctrls_error e =? 0)
    then (err_free_ctrl p1, ctrls_error e, None)
    else
      let '(b2, ret) := imx415_power_on s (brd p1) in
      let p2 := mkPlatform b2 (handlers p1) (mutexes p1) (endpoint_frees p1)
                           (entities p1) (registered p1) (rpm_enabled p1) in
      if ret <? 0 then (err_free_err p2, ret, None)
      else
        let '(w3, ret3) := imx415_identify_module s (io b2) in
        let b3 := mkBoard w3 (clk_ret b2) (supplies_ret b2) (clk_on b2)
                          (supplies_on b2) (rst_line b2) (slept_us b2) in
        let p3 := mkPlatform b3 (handlers p2) (mutexes p2) (endpoint_frees p2)
                             (entities p2) (registered p2) (rpm_enabled p2) in
        if negb (ret3 =? 0) then (error_power_off s p3, ret3, None)
        else if pads_init_ret e <? 0
        then (err_free_ctrl p3, pads_init_ret e, None)
        else
          let p4 := mkPlatform (brd p3) (handlers p3) (mutexes p3) (endpoint_frees p3)
                               (entities p3 + 1) (registered p3) (rpm_enabled p3) in
          if async_register_ret e <? 0
          then (err_free_entity s p4, async_register_ret e, None)
          else
            (mkPlatform (brd p4) (handlers p4) (mutexes p4) (endpoint_frees p4 + 1)
                        (entities p4) true true, 0, Some s).

(** [suspended] is what the runtime-PM core reports about the device. *)
Definition imx415_remove (suspended : bool) (s : imx415) (p : platform) : platform * Z :=
  let p1 := mkPlatform (brd p) (handlers p - 1) (mutexes p - 1) (endpoint_frees p)
                       (entities p - 1) false false in
  if negb suspended
  then (mkPlatform (fst (imx415_power_off s (brd p1))) (handlers p1) (mutexes p1)
                   (endpoint_frees p1) (entities p1) false false, 0)
  else (p1, 0).

(** * Vocabulary of the statements *)

Definition acked (r : i2c_reply) : bool :=
  match r with Ack _ => true | Nack => false end.

(** The reply the [i]-th transaction from now on will get. *)
Definition reply_at (w : world) (i : nat) : i2c_reply := nth i (script w) (Ack 0).

(** What a single-byte write of [v] to register [r] puts on the bus. *)
Definition frame8 (r v : Z) : i2c_xfer :=
  Send [Z.land (Z.shiftr r 8) 0xff; Z.land r 0xff; Z.land v 0xff].

Definition frame_of (e : imx415_regval) : i2c_xfer := frame8 (reg e) (val e).

Definition write_code (r : i2c_reply) : Z :=
  match r with Ack _ => 0 | Nack => - EIO end.

(** What a single-byte read of register [r] puts on the bus. *)
Definition probe8 (r : Z) : i2c_xfer :=
  ReadAt [Z.land (Z.shiftr r 8) 0xff; Z.land r 0xff] 1.

(** The sub-writes of the multi-byte registers, in the order of the source. *)
Definition sub_writes (id : ctrl_id) (v : Z) (s : imx415) : list i2c_xfer :=
  match id with
  | V4L2_CID_EXPOSURE =>
      let shr0 := u32 (cur_vts s - v) in
      [ frame8 IMX415_LF_EXPO_REG_L (IMX415_FETCH_EXP_L shr0);
        frame8 IMX415_LF_EXPO_REG_M (IMX415_FETCH_EXP_M shr0);
        frame8 IMX415_LF_EXPO_REG_H (IMX415_FETCH_EXP_H shr0) ]
  | V4L2_CID_ANALOGUE_GAIN =>
      [ frame8 IMX415_LF_GAIN_REG_H (IMX415_FETCH_GAIN_H v);
        frame8 IMX415_LF_GAIN_REG_L (IMX415_FETCH_GAIN_L v) ]
  | V4L2_CID_VBLANK =>
      let vts := u32 (v + height (cur_mode s)) in
      [ frame8 IMX415_VTS_REG_L (IMX415_FETCH_VTS_L vts);
        frame8 IMX415_VTS_REG_M (IMX415_FETCH_VTS_M vts);
        frame8 IMX415_VTS_REG_H (IMX415_FETCH_VTS_H vts) ]
  | _ => []
  end.

Definition multi_byte (id : ctrl_id) : bool :=
  match id with
  | V4L2_CID_EXPOSURE | V4L2_CID_ANALOGUE_GAIN | V4L2_CID_VBLANK => true
  | _ => false
  end.

Definition flip_bit (id : ctrl_id) : Z :=
  match id with V4L2_CID_VFLIP => 1 | _ => 0 end.

Definition is_flip (id : ctrl_id) : bool :=
  match id with V4L2_CID_HFLIP | V4L2_CID_VFLIP => true | _ => false end.

Definition default_fmt : v4l2_mbus_framefmt :=
  mkFmt IMX415_PIXEL_ARRAY_WIDTH IMX415_PIXEL_ARRAY_HEIGHT MEDIA_BUS_FMT_SGBRG10_1X10.

(** [ran w w' n]: [w'] is [w] after [n] further bus transactions. *)
Definition ran (w w' : world) (n : nat) : Prop :=
  length (wire w') = (length (wire w) + n)%nat /\
  script w' = skipn n (script w) /\
  rpm_script w' = rpm_script w /\ rpm_usage w' = rpm_usage w.

Definition clean (w : world) (n : nat) : Prop :=
  forall i, (i < n)%nat -> acked (reply_at w i) = true.

(** The result of a run of [n] writes that stops at the first failure: 0
    with every write acknowledged, or the I/O error with the last write
    refused and all before it acknowledged. *)
Definition verdict (w : world) (n : nat) (ret : Z) : Prop :=
  (ret = 0 /\ clean w n)
  \/ (ret = - EIO /\ (0 < n)%nat /\ clean w (n - 1) /\ reply_at w (n - 1) = Nack).

Definition manhattan (m : imx415_mode) (f : v4l2_mbus_framefmt) : Z :=
  Z.abs (width m - f_width f) + Z.abs (height m - f_height f).

(** Dimensions for which the 32-bit distance is the mathematical one. *)
Definition small (x : Z) : Prop := 0 <= x < 2 ^ 30.

Definition small_mode (m : imx415_mode) : Prop := small (width m) /\ small (height m).

(** What the loop has established after looking at the entries [pre]:
    either none of them has the requested format and the initial values
    stand, or [best] is the last of those with the requested format that
    are nearest to the request, at distance [bd]. *)
Definition fit (f : v4l2_mbus_framefmt) (pre : list imx415_mode) (best bd : Z) : Prop :=
  (bd = -1 /\ best = 0 /\
   forall j mj, nth_error pre j = Some mj -> bus_fmt mj <> f_code f)
  \/ (exists kb mb,
        best = Z.of_nat kb /\ nth_error pre kb = Some mb /\
        bus_fmt mb = f_code f /\ bd = manhattan mb f /\
        forall j mj, nth_error pre j = Some mj -> bus_fmt mj = f_code f ->
                     bd <= manhattan mj f /\ (manhattan mj f = bd -> (j <= kb)%nat)).

(** A catalogue extended by a second entry of the same size and format, and
    a session that looks at both entries. *)
Definition second_timing : imx415_mode :=
  mkMode (bus_fmt mode_3864x2192) (width mode_3864x2192) (height mode_3864x2192)
         (max_fps mode_3864x2192) (hts_def mode_3864x2192) (vts_def mode_3864x2192)
         (exp_def mode_3864x2192) 1 (bpp mode_3864x2192)
         (reg_list mode_3864x2192) (data_size mode_3864x2192).

Definition two_modes : list imx415_mode := [mode_3864x2192; second_timing].

Definition looks_at (n : Z) (s : imx415) : imx415 :=
  mkImx415 (nlanes s) (cur_mode s) (streaming s) (power_on s) n (cur_vts s)
           (hblank s) (vblank s) (exposure s).

(** Selection with ties going to the lowest index: for every request the
    entry returned carries the requested format, is at the least Manhattan
    distance among the entries that do, and has the lowest index among the
    equally near ones. *)
Definition lowest_index_best_fit (catalog : list imx415_mode) (s : imx415) : Prop :=
  forall f : v4l2_mbus_framefmt,
  exists k m,
    find_best_fit_in catalog s f = Done m /\ nth_error catalog k = Some m /\
    bus_fmt m = f_code f /\
    forall j mj, nth_error catalog j = Some mj -> bus_fmt mj = f_code f ->
                 manhattan m f <= manhattan mj f /\
                 (manhattan mj f = manhattan m f -> (k <= j)%nat).

(** The number a sequence of bytes stands for, most significant first. *)
Definition be_value (bytes : list Z) : Z :=
  fold_left (fun acc b => acc * 256 + b) bytes 0.

(** The device stays powered: every runtime-PM "get" still to come answers
    with a positive value. *)
Definition stays_powered (w : world) : Prop :=
  Forall (fun r => 0 < r) (rpm_script w).

(** A control with another current value. *)
Definition with_cur (c : v4l2_ctrl) (x : Z) : v4l2_ctrl :=
  mkCtrl (minimum c) (maximum c) (step c) (default_value c) x.

(** The states the driver can be in: the one the probe leaves, and those
    that the control handler, the format selection and the streaming switch
    lead to from there, called with any arguments.  Between two calls the
    environment may have changed in any way, and the control framework may
    have stored any current values in the controls. *)
Inductive reachable : dev -> Prop :=
| reach_probe lanes w :
    reachable (imx415_probe_session lanes, w)
| reach_set_ctrl id v st :
    reachable st -> reachable (fst (imx415_set_ctrl id v st))
| reach_set_fmt api which f st st' f' r :
    reachable st -> imx415_set_fmt api which f st = Done (st', f', r) ->
    reachable st'
| reach_s_stream on st st' r :
    reachable st -> imx415_s_stream on st = Done (st', r) -> reachable st'
| reach_env s w w' :
    reachable (s, w) -> reachable (s, w')
| reach_values s w a b c :
    reachable (s, w) ->
    reachable (set_hblank (with_cur (hblank s) a)
                 (set_vblank (with_cur (vblank s) b)
                    (set_exposure (with_cur (exposure s) c) s)), w).

(** What every reachable session satisfies. *)
Definition session_inv (s : imx415) : Prop :=
  cfg_num s = 0 /\ cur_mode s = mode_3864x2192 /\
  0 <= cur_vts s < 2 ^ 32 /\
  minimum (exposure s) = IMX415_EXPOSURE_MIN /\
  step (exposure s) = IMX415_EXPOSURE_STEP /\
  default_value (exposure s) = exp_def mode_3864x2192 /\
  exp_def mode_3864x2192 <= maximum (exposure s).

(** The value the lane-mode register is given for a lane count. *)
Definition lane_value (lanes : Z) : Z := if lanes =? 2 then 0x01 else 0x03.

(** The firmware description is complete and valid, and every resource the
    probe asks for before creating the controls is granted. *)
Definition config_ok (e : probe_env) : Prop :=
  alloc_ok e = true /\ endpoint_found e = true /\ endpoint_parse_ret e = 0 /\
  (num_data_lanes e = 2 \/ num_data_lanes e = 4) /\
  nr_of_link_frequencies e <> 0 /\ xclk_err e = 0 /\
  clock_frequency_ret e = 0 /\
  (clock_frequency e = 37125000 \/ clock_frequency e = 74250000) /\
  clk_set_rate_ret e = 0 /\ 0 <= regulators_get_ret e /\ rst_gpio_err e = 0.

(** The platform after the controls have been created. *)
Definition with_controls (p : platform) : platform :=
  mkPlatform (brd p) (handlers p + 1) (mutexes p + 1) (endpoint_frees p)
             (entities p) (registered p) (rpm_enabled p).

(** A complete description with 4 lanes and the 37.125 MHz clock, and a
    platform on which nothing has been acquired yet. *)
Definition good_description : probe_env :=
  mkProbeEnv true true 0 4 1 0 0 37125000 0 0 0 0 0 0.

Definition fresh_platform (w : world) : platform :=
  mkPlatform (mkBoard w 0 0 0 0 0 0) 0 0 0 0 false false.

(** * Properties *)

(** ** Single-byte register writes *)

Lemma imx415_write_reg_08bit r v w :
  imx415_write_reg r IMX415_REG_VALUE_08BIT v w
  = (transact (frame8 r v) w, write_code (next_reply w)).
Proof.
  unfold imx415_write_reg, i2c_master_send, frame8, IMX415_REG_VALUE_08BIT.
  destruct (next_reply w); reflexivity.
Qed.

Lemma imx415_read_reg_08bit r old w :
  imx415_read_reg r IMX415_REG_VALUE_08BIT old w
  = (transact (probe8 r) w,
     write_code (next_reply w),
     match next_reply w with Ack data => data mod 2 ^ 8 | Nack => old end).
Proof.
  unfold imx415_read_reg, i2c_transfer, probe8, IMX415_REG_VALUE_08BIT.
  destruct (next_reply w); reflexivity.
Qed.

Lemma next_reply_at w : next_reply w = reply_at w 0.
Proof. unfold next_reply, reply_at. destruct (script w); reflexivity. Qed.

Lemma reply_at_transact x w i : reply_at (transact x w) i = reply_at w (S i).
Proof.
  unfold reply_at, transact; simpl.
  destruct (script w) as [|a l]; simpl; [destruct i|]; reflexivity.
Qed.

Lemma write_code_cases r :
  (write_code r = 0 /\ acked r = true) \/ (write_code r = - EIO /\ r = Nack).
Proof. destruct r; simpl; auto. Qed.

(** ** Register tables *)

(** A run of [imx415_write_array] that returns has issued the writes of a
    prefix of the table, in order; every write but the last one issued was
    acknowledged, and the return code is that of the last one. *)
Lemma imx415_write_array_done regs : forall w w' ret,
  imx415_write_array regs w = Done (w', ret) ->
  exists n : nat,
    (n <= length regs)%nat /\
    Forall (fun e => reg e <> REG_NULL) (firstn n regs) /\
    wire w' = wire w ++ map frame_of (firstn n regs) /\
    script w' = skipn n (script w) /\
    rpm_script w' = rpm_script w /\ rpm_usage w' = rpm_usage w /\
    (forall i, (S i < n)%nat -> acked (reply_at w i) = true) /\
    ((ret = 0 /\ forall i, (i < n)%nat -> acked (reply_at w i) = true)
     \/ (ret = - EIO /\ (0 < n)%nat /\ reply_at w (n - 1) = Nack)).
Proof.
  induction regs as [|e rest IH]; intros w w' ret H; simpl in H; [discriminate|].
  destruct (reg e =? REG_NULL) eqn:Enull.
  - injection H as <- <-. exists 0%nat. simpl.
    rewrite app_nil_r. repeat apply conj; auto; try lia.
    left. split; [reflexivity | intros i Hi; lia].
  - rewrite imx415_write_reg_08bit in H.
    apply Z.eqb_neq in Enull.
    destruct (write_code_cases (next_reply w)) as [[Hc Ha] | [Hc Hn]]; rewrite Hc in H.
    + simpl in H. apply IH in H.
      destruct H as (n & Hn & Hnull & Hw & Hs & Hr & Hu & Hpre & Hres).
      exists (S n). simpl.
      assert (Hat : forall i, reply_at w (S i) = reply_at (transact (frame_of e) w) i)
        by (intro i; symmetry; apply reply_at_transact).
      repeat apply conj.
      * lia.
      * constructor; assumption.
      * rewrite Hw. simpl. rewrite <- app_assoc. reflexivity.
      * rewrite Hs. simpl. destruct (script w); [destruct n|]; reflexivity.
      * rewrite Hr. reflexivity.
      * rewrite Hu. reflexivity.
      * intros [|i] Hi; [rewrite <- next_reply_at; exact Ha|].
        rewrite Hat. apply Hpre. lia.
      * destruct Hres as [[Hz Hall] | (He & Hpos & Hlast)].
        -- left. split; [exact Hz|].
           intros [|i] Hi; [rewrite <- next_reply_at; exact Ha|].
           rewrite Hat. apply Hall. lia.
        -- right. split; [exact He|]. split; [lia|].
           destruct n as [|n]; [lia|]. simpl in *.
           rewrite Nat.sub_0_r in *. rewrite Hat. exact Hlast.
    + unfold EIO in H. simpl in H. injection H as <- <-.
      exists 1%nat. simpl. repeat apply conj.
      * lia.
      * constructor; [assumption | constructor].
      * reflexivity.
      * destruct (script w); reflexivity.
      * reflexivity.
      * reflexivity.
      * intros i Hi; lia.
      * right. split; [reflexivity|]. split; [lia|].
        simpl. rewrite <- next_reply_at. exact Hn.
Qed.

(** C8. Applying a sentinel-terminated register table returns; it has then
    written the entries of the table as single-byte writes in the order of
    the table, up to and including the first write that failed, whose error
    is the result, and nothing after it; with no failure every entry before
    the sentinel has been written and the result is 0.  The sentinel is never
    among the entries written. *)
Theorem imx415_write_array_sentinel body x rest : forall w,
  Forall (fun e => reg e <> REG_NULL) body ->
  exists (n : nat) (w' : world) (ret : Z),
    imx415_write_array (body ++ RV REG_NULL x :: rest) w = Done (w', ret) /\
    (n <= length body)%nat /\
    wire w' = wire w ++ map frame_of (firstn n body) /\
    Forall (fun e => reg e <> REG_NULL) (firstn n body) /\
    (forall i, (S i < n)%nat -> acked (reply_at w i) = true) /\
    ((ret = 0 /\ n = length body /\
      forall i, (i < n)%nat -> acked (reply_at w i) = true)
     \/ (ret = - EIO /\ (0 < n)%nat /\ reply_at w (n - 1) = Nack)).
Proof.
  induction body as [|e body IH]; intros w Hbody; simpl.
  - exists 0%nat, w, 0. simpl. rewrite app_nil_r.
    repeat apply conj; auto; try lia.
    left. repeat apply conj; auto. intros i Hi; lia.
  - inversion Hbody as [|e' l' He Hrest]; subst.
    destruct (reg e =? REG_NULL) eqn:Enull; [apply Z.eqb_eq in Enull; contradiction|].
    rewrite imx415_write_reg_08bit.
    destruct (write_code_cases (next_reply w)) as [[Hc Ha] | [Hc Hn]]; rewrite Hc.
    + simpl.
      destruct (IH (transact (frame_of e) w) Hrest)
        as (n & w' & ret & Hrun & Hn & Hw & Hnull & Hpre & Hres).
      assert (Hat : forall i, reply_at w (S i) = reply_at (transact (frame_of e) w) i)
        by (intro i; symmetry; apply reply_at_transact).
      exists (S n), w', ret. simpl. repeat apply conj.
      * exact Hrun.
      * lia.
      * rewrite Hw. simpl. rewrite <- app_assoc. reflexivity.
      * constructor; assumption.
      * intros [|i] Hi; [rewrite <- next_reply_at; exact Ha|].
        rewrite Hat. apply Hpre. lia.
      * destruct Hres as [(Hz & Hlen & Hall) | (He' & Hpos & Hlast)].
        -- left. repeat apply conj; [exact Hz | lia |].
           intros [|i] Hi; [rewrite <- next_reply_at; exact Ha|].
           rewrite Hat. apply Hall. lia.
        -- right. repeat apply conj; [exact He' | lia |].
           destruct n as [|n]; [lia|]. simpl in *.
           rewrite Nat.sub_0_r in *. rewrite Hat. exact Hlast.
    + unfold EIO. simpl.
      exists 1%nat, (transact (frame_of e) w), (-5). simpl. repeat apply conj.
      * reflexivity.
      * lia.
      * reflexivity.
      * constructor; [assumption | constructor].
      * intros i Hi; lia.
      * right. repeat apply conj; [reflexivity | lia |].
        rewrite <- next_reply_at. exact Hn.
Qed.

(** The table of the 3864x2192 mode, second write refused. *)
Lemma imx415_write_array_sentinel_witness :
  let body := firstn 26 imx415_linear_10bit_3864x2192_891M_regs in
  let w := mkWorld [] [Ack 0; Nack] [] 0 in
  Forall (fun e => reg e <> REG_NULL) body /\
  exists (n : nat) (w' : world) (ret : Z),
    imx415_write_array (body ++ RV REG_NULL 0 :: []) w = Done (w', ret) /\
    (n <= length body)%nat /\
    wire w' = wire w ++ map frame_of (firstn n body) /\
    Forall (fun e => reg e <> REG_NULL) (firstn n body) /\
    (forall i, (S i < n)%nat -> acked (reply_at w i) = true) /\
    ((ret = 0 /\ n = length body /\
      forall i, (i < n)%nat -> acked (reply_at w i) = true)
     \/ (ret = - EIO /\ (0 < n)%nat /\ reply_at w (n - 1) = Nack)).
Proof.
  assert (H : Forall (fun e => reg e <> REG_NULL)
                (firstn 26 imx415_linear_10bit_3864x2192_891M_regs)).
  { apply Forall_forall. intros e He.
    assert (Hb : forallb (fun e => negb (reg e =? REG_NULL))
                   (firstn 26 imx415_linear_10bit_3864x2192_891M_regs) = true)
      by (vm_compute; reflexivity).
    rewrite forallb_forall in Hb. specialize (Hb e He).
    apply negb_true_iff, Z.eqb_neq in Hb. exact Hb. }
  split; [exact H|].
  apply (imx415_write_array_sentinel
           (firstn 26 imx415_linear_10bit_3864x2192_891M_regs) 0 []
           (mkWorld [] [Ack 0; Nack] [] 0) H).
Defined.

(** The table written before every mode table has no sentinel: when none of
    its writes fails, the loop of [imx415_write_array] reads past its end. *)
Lemma imx415_common_regs_unterminated :
  Forall (fun e => reg e <> REG_NULL) imx415_common_regs /\
  imx415_write_array imx415_common_regs quiet = Overrun.
Proof.
  split; [|vm_compute; reflexivity].
  apply Forall_forall. intros e He.
  assert (Hb : forallb (fun e => negb (reg e =? REG_NULL)) imx415_common_regs = true)
    by (vm_compute; reflexivity).
  rewrite forallb_forall in Hb. specialize (Hb e He).
  apply negb_true_iff, Z.eqb_neq in Hb. exact Hb.
Qed.

(** ** The mode catalogue *)

(** C9. Every mode of the catalogue has a horizontal total size of at least
    its width, a vertical total size of at least its height, a default
    exposure below the vertical total size less 4 lines, and even width and
    height. *)
Theorem supported_modes_consistent :
  Forall (fun m =>
            width m <= hts_def m /\ height m <= vts_def m /\
            exp_def m < vts_def m - 4 /\
            Z.even (width m) = true /\ Z.even (height m) = true)
         supported_modes.
Proof.
  unfold supported_modes. constructor; [|constructor].
  cbv - [Z.le Z.lt]. repeat apply conj; try lia; reflexivity.
Qed.

(** ** Streaming switch *)

(** C7. A request for the state the session is already in (start while
    streaming, stop while in standby) returns 0 and leaves the session and
    the environment as they were: nothing is put on the bus.  A request that
    has succeeded can therefore be repeated with no further effect. *)
Theorem imx415_s_stream_self_transition :
  (forall s w on, streaming s = negb (on =? 0) ->
     imx415_s_stream on (s, w) = Done ((s, w), 0)) /\
  (forall on st st', imx415_s_stream on st = Done (st', 0) ->
     imx415_s_stream on st' = Done (st', 0)).
Proof.
  assert (Hself : forall s w on, streaming s = negb (on =? 0) ->
            imx415_s_stream on (s, w) = Done ((s, w), 0)).
  { intros s w on H. unfold imx415_s_stream. rewrite H.
    rewrite Bool.eqb_reflx. reflexivity. }
  split; [exact Hself|].
  intros on [s w] [s' w'] H. apply Hself.
  unfold imx415_s_stream in H.
  destruct (Bool.eqb (negb (on =? 0)) (streaming s)) eqn:E.
  - injection H as <- <-. symmetry. apply Bool.eqb_prop. exact E.
  - destruct (negb (on =? 0)) eqn:Eon.
    + destruct (pm_runtime_get_sync w) as [w1 ret].
      destruct (ret <? 0) eqn:Eret.
      * injection H as _ _ Hr. apply Z.ltb_lt in Eret. lia.
      * destruct (__imx415_start_stream s w1) as [[w2 ret2]|]; [|discriminate].
        destruct (negb (ret2 =? 0)) eqn:E2.
        -- injection H as _ _ Hr. subst ret2. discriminate.
        -- injection H as <- _. reflexivity.
    + destruct (__imx415_stop_stream s w) as [w1 r].
      injection H as <- _. reflexivity.
Qed.

Lemma imx415_s_stream_self_transition_witness :
  imx415_s_stream 0 (imx415_probe_session 4, quiet)
  = Done ((imx415_probe_session 4, quiet), 0).
Proof.
  apply (proj1 imx415_s_stream_self_transition (imx415_probe_session 4) quiet 0).
  reflexivity.
Defined.

(** ** The control handler: register groups *)

Lemma pm_runtime_get_eq w :
  pm_runtime_get w
  = (mkWorld (wire w) (script w) (tl (rpm_script w)) (rpm_usage w + 1), rpm_next w).
Proof. reflexivity. Qed.

Lemma reply_at_rpm w l u i :
  reply_at (mkWorld (wire w) (script w) l u) i = reply_at w i.
Proof. reflexivity. Qed.

Ltac bus_norm :=
  repeat first
    [ rewrite imx415_write_reg_08bit
    | rewrite next_reply_at
    | rewrite reply_at_transact
    | rewrite reply_at_rpm ].

Ltac index_cases i H :=
  destruct i as [|[|[|i]]]; simpl in H; try lia.

(** With the device powered, the register stage of a multi-byte control
    issues every sub-write of the group whatever the replies are, and its
    result is 0 exactly when every one of them was acknowledged. *)
Lemma imx415_set_ctrl_regs_group id v s w :
  multi_byte id = true -> 0 < rpm_next w ->
  exists s' w' ret,
    imx415_set_ctrl_regs id v (s, w) = ((s', w'), ret) /\
    s' = match id with
         | V4L2_CID_VBLANK => set_cur_vts (u32 (v + height (cur_mode s))) s
         | _ => s
         end /\
    wire w' = wire w ++ sub_writes id v s /\
    ((ret = 0 /\
      forall i, (i < length (sub_writes id v s))%nat -> acked (reply_at w i) = true)
     \/ (ret = - EIO /\
         exists i, (i < length (sub_writes id v s))%nat /\ reply_at w i = Nack)).
Proof.
  intros Hid Hpm.
  unfold imx415_set_ctrl_regs. rewrite pm_runtime_get_eq.
  assert (Hoff : (rpm_next w <=? 0) = false) by (apply Z.leb_gt; exact Hpm).
  rewrite Hoff.
  destruct id; try discriminate Hid; bus_norm;
    cbn [sub_writes multi_byte length].
  - destruct (reply_at w 0) eqn:E0, (reply_at w 1) eqn:E1, (reply_at w 2) eqn:E2;
      eexists _, _, _; (split; [reflexivity|]); (split; [reflexivity|]);
      (split; [cbn [wire transact pm_runtime_put]; rewrite <- !app_assoc; reflexivity|]);
      cbn [write_code];
      first [ left; split; [reflexivity|];
              intros i Hi; index_cases i Hi; rewrite ?E0, ?E1, ?E2; reflexivity
            | right; split; [reflexivity|];
              first [ exists 0%nat; split; [simpl; lia | assumption]
                    | exists 1%nat; split; [simpl; lia | assumption]
                    | exists 2%nat; split; [simpl; lia | assumption] ] ].
  - destruct (reply_at w 0) eqn:E0, (reply_at w 1) eqn:E1;
      eexists _, _, _; (split; [reflexivity|]); (split; [reflexivity|]);
      (split; [cbn [wire transact pm_runtime_put]; rewrite <- !app_assoc; reflexivity|]);
      cbn [write_code];
      first [ left; split; [reflexivity|];
              intros i Hi; index_cases i Hi; rewrite ?E0, ?E1; reflexivity
            | right; split; [reflexivity|];
              first [ exists 0%nat; split; [simpl; lia | assumption]
                    | exists 1%nat; split; [simpl; lia | assumption] ] ].
  - destruct (reply_at w 0) eqn:E0, (reply_at w 1) eqn:E1, (reply_at w 2) eqn:E2;
      eexists _, _, _; (split; [reflexivity|]); (split; [reflexivity|]);
      (split; [cbn [wire transact pm_runtime_put]; rewrite <- !app_assoc; reflexivity|]);
      cbn [write_code];
      first [ left; split; [reflexivity|];
              intros i Hi; index_cases i Hi; rewrite ?E0, ?E1, ?E2; reflexivity
            | right; split; [reflexivity|];
              first [ exists 0%nat; split; [simpl; lia | assumption]
                    | exists 1%nat; split; [simpl; lia | assumption]
                    | exists 2%nat; split; [simpl; lia | assumption] ] ].
Qed.

(** For every control but the vertical blanking the handler is its register
    stage; this is the handler the framework calls back for the exposure. *)
Lemma imx415_set_ctrl_no_propagation id v st :
  id <> V4L2_CID_VBLANK -> imx415_set_ctrl id v st = imx415_set_ctrl_regs id v st.
Proof. intros Hid. destruct id; try reflexivity. contradiction. Qed.

(** The register stage never touches the session for a control other than
    the vertical blanking, and never touches the controls. *)
Lemma imx415_set_ctrl_regs_session id v s w :
  fst (fst (imx415_set_ctrl_regs id v (s, w)))
  = (if 0 <? rpm_next w
     then match id with
          | V4L2_CID_VBLANK => set_cur_vts (u32 (v + height (cur_mode s))) s
          | _ => s
          end
     else s).
Proof.
  unfold imx415_set_ctrl_regs. rewrite pm_runtime_get_eq.
  destruct (Z.leb_spec (rpm_next w) 0) as [Hoff | Hon].
  - replace (0 <? rpm_next w) with false by (symmetry; apply Z.ltb_ge; lia).
    reflexivity.
  - replace (0 <? rpm_next w) with true by (symmetry; apply Z.ltb_lt; lia).
    destruct id; bus_norm; cbn [fst]; try reflexivity.
    + rewrite imx415_read_reg_08bit.
      destruct (next_reply _); cbn [write_code negb Z.eqb Z.opp EIO];
        bus_norm; reflexivity.
    + rewrite imx415_read_reg_08bit.
      destruct (next_reply _); cbn [write_code negb Z.eqb Z.opp EIO];
        bus_norm; reflexivity.
Qed.

(** The propagation step changes nothing of the session but the exposure
    control. *)
Lemma imx415_set_ctrl_propagate_session id v s w :
  exists c, fst (imx415_set_ctrl_propagate id v (s, w)) = set_exposure c s.
Proof.
  assert (Hsame : set_exposure (exposure s) s = s) by (destruct s; reflexivity).
  destruct id; try (exists (exposure s); rewrite Hsame; reflexivity).
  unfold imx415_set_ctrl_propagate, __v4l2_ctrl_modify_range. cbn [fst].
  destruct (negb (check_range _ _ _ _ =? 0)).
  - exists (exposure s). rewrite Hsame. reflexivity.
  - unfold dev_exposure, dev_set_exposure. cbn [fst snd cur_val].
    match goal with |- context [if ?b then _ else _] => destruct b end.
    + eexists. reflexivity.
    + match goal with |- context [imx415_set_ctrl_regs ?i ?x (?a, ?b)] =>
        pose proof (imx415_set_ctrl_regs_session i x a b) as Hs;
        destruct (imx415_set_ctrl_regs i x (a, b)) as [[s2 w2] ret]
      end.
      cbn [fst] in Hs.
      assert (Hs2 : s2 = set_exposure
                (mkCtrl (minimum (exposure s)) (u32 (height (cur_mode s) + v - 4))
                        (step (exposure s)) (default_value (exposure s))
                        (cur_val (exposure s))) s)
        by (rewrite Hs; destruct (0 <? _); reflexivity).
      destruct (negb (ret =? 0)); cbn [fst snd].
      * eexists. exact Hs2.
      * rewrite Hs2. eexists. reflexivity.
Qed.

Lemma imx415_set_ctrl_propagate_keeps id v s w :
  cur_mode (fst (imx415_set_ctrl_propagate id v (s, w))) = cur_mode s /\
  cur_vts (fst (imx415_set_ctrl_propagate id v (s, w))) = cur_vts s.
Proof.
  destruct (imx415_set_ctrl_propagate_session id v s w) as [c Hc].
  rewrite Hc. split; reflexivity.
Qed.

Lemma sub_writes_set_exposure id v c s :
  sub_writes id v (set_exposure c s) = sub_writes id v s.
Proof. destruct id; reflexivity. Qed.

(** C4. For the exposure, the analogue gain and the vertical total size, a
    powered device is sent every sub-write of the group (three, two and three
    single-byte writes) whatever the replies to the earlier ones are; the
    result is 0 when all were acknowledged and the I/O error when any of them
    was not.  [st1] is the state in which the register stage starts. *)
Theorem imx415_set_ctrl_attempts_all id v st :
  multi_byte id = true ->
  let st1 := imx415_set_ctrl_propagate id v st in
  0 < rpm_next (snd st1) ->
  exists s' w' ret,
    imx415_set_ctrl id v st = ((s', w'), ret) /\
    wire w' = wire (snd st1) ++ sub_writes id v (fst st) /\
    (length (sub_writes id v (fst st)) = 2 \/ length (sub_writes id v (fst st)) = 3)%nat /\
    ((ret = 0 /\
      forall i, (i < length (sub_writes id v (fst st)))%nat ->
                acked (reply_at (snd st1) i) = true)
     \/ (ret = - EIO /\
         exists i, (i < length (sub_writes id v (fst st)))%nat /\
                   reply_at (snd st1) i = Nack)).
Proof.
  intros Hid st1 Hpm. unfold imx415_set_ctrl. fold st1.
  destruct st as [s w].
  destruct (imx415_set_ctrl_propagate_session id v s w) as [c Hc].
  fold st1 in Hc. destruct st1 as [s1 w1]. cbn [fst snd] in *. subst s1.
  destruct (imx415_set_ctrl_regs_group id v (set_exposure c s) w1 Hid Hpm)
    as (s' & w' & ret & Hrun & _ & Hw & Hres).
  rewrite sub_writes_set_exposure in Hw, Hres.
  exists s', w', ret. repeat apply conj; try assumption.
  destruct id; try discriminate Hid; cbn; auto.
Qed.

Lemma imx415_set_ctrl_attempts_all_witness :
  let st := (imx415_probe_session 4, mkWorld [] [Nack] [] 0) in
  let st1 := imx415_set_ctrl_propagate V4L2_CID_ANALOGUE_GAIN 0x30 st in
  multi_byte V4L2_CID_ANALOGUE_GAIN = true /\ 0 < rpm_next (snd st1) /\
  exists s' w' ret,
    imx415_set_ctrl V4L2_CID_ANALOGUE_GAIN 0x30 st = ((s', w'), ret) /\
    wire w' = wire (snd st1) ++ sub_writes V4L2_CID_ANALOGUE_GAIN 0x30 (fst st) /\
    (length (sub_writes V4L2_CID_ANALOGUE_GAIN 0x30 (fst st)) = 2
     \/ length (sub_writes V4L2_CID_ANALOGUE_GAIN 0x30 (fst st)) = 3)%nat /\
    ((ret = 0 /\
      forall i, (i < length (sub_writes V4L2_CID_ANALOGUE_GAIN 0x30 (fst st)))%nat ->
                acked (reply_at (snd st1) i) = true)
     \/ (ret = - EIO /\
         exists i, (i < length (sub_writes V4L2_CID_ANALOGUE_GAIN 0x30 (fst st)))%nat /\
                   reply_at (snd st1) i = Nack)).
Proof.
  split; [reflexivity|]. split; [reflexivity|].
  apply (imx415_set_ctrl_attempts_all V4L2_CID_ANALOGUE_GAIN 0x30
           (imx415_probe_session 4, mkWorld [] [Nack] [] 0));
    reflexivity.
Defined.

(** ** Exposure and the shutter register *)

Lemma land_ff x : Z.land x 0xff = x mod 2 ^ 8.
Proof. change 0xff with (Z.ones 8). apply Z.land_ones. lia. Qed.

Lemma land_0f x : Z.land x 0x0f = x mod 2 ^ 4.
Proof. change 0x0f with (Z.ones 4). apply Z.land_ones. lia. Qed.

Lemma three_bytes x :
  0 <= x < 2 ^ 20 ->
  x mod 2 ^ 8 + 2 ^ 8 * ((x / 2 ^ 8) mod 2 ^ 8) + 2 ^ 16 * ((x / 2 ^ 16) mod 2 ^ 4) = x.
Proof.
  change (2 ^ 20) with 1048576. change (2 ^ 16) with 65536.
  change (2 ^ 8) with 256. change (2 ^ 4) with 16.
  intros H. Z.div_mod_to_equations. lia.
Qed.

(** C5. Setting the exposure [e] on a powered device writes the shutter value
    [shr0 = cur_vts - e], computed in 32 bits, to the three exposure
    registers: bits 0 to 7 to the low one, bits 8 to 15 to the middle one and
    bits 16 to 19 to the high one.  When [cur_vts - e] fits in 20 bits the
    three bytes written recombine to exactly that difference. *)
Theorem imx415_set_exposure_shutter e s w :
  0 < rpm_next w ->
  let shr0 := u32 (cur_vts s - e) in
  exists w' ret,
    imx415_set_ctrl V4L2_CID_EXPOSURE e (s, w) = ((s, w'), ret) /\
    wire w' = wire w ++ [ Send [0x30; 0x50; shr0 mod 2 ^ 8];
                          Send [0x30; 0x51; (shr0 / 2 ^ 8) mod 2 ^ 8];
                          Send [0x30; 0x52; (shr0 / 2 ^ 16) mod 2 ^ 4] ] /\
    (0 <= cur_vts s - e < 2 ^ 20 ->
     shr0 = cur_vts s - e /\
     shr0 mod 2 ^ 8 + 2 ^ 8 * ((shr0 / 2 ^ 8) mod 2 ^ 8)
       + 2 ^ 16 * ((shr0 / 2 ^ 16) mod 2 ^ 4) = cur_vts s - e).
Proof.
  intros Hpm shr0.
  destruct (imx415_set_ctrl_regs_group V4L2_CID_EXPOSURE e s w eq_refl Hpm)
    as (s' & w' & ret & Hrun & Hs & Hw & _).
  subst s'. exists w', ret. repeat apply conj.
  - exact Hrun.
  - rewrite Hw. cbn [sub_writes]. fold shr0.
    unfold frame8, IMX415_FETCH_EXP_L, IMX415_FETCH_EXP_M, IMX415_FETCH_EXP_H.
    rewrite !land_ff, land_0f, !Z.shiftr_div_pow2 by lia.
    rewrite !Z.mod_mod by lia.
    assert (H4 : forall a, (a mod 2 ^ 4) mod 2 ^ 8 = a mod 2 ^ 4).
    { intro a. apply Z.mod_small.
      pose proof (Z.mod_pos_bound a (2 ^ 4) ltac:(lia)). lia. }
    rewrite H4. reflexivity.
  - intros Hfit.
    assert (Hsh : shr0 = cur_vts s - e).
    { unfold shr0, u32. apply Z.mod_small.
      change (2 ^ 20) with 1048576 in Hfit. change (2 ^ 32) with 4294967296. lia. }
    split; [exact Hsh|]. rewrite Hsh. apply three_bytes. exact Hfit.
Qed.

Lemma imx415_set_exposure_shutter_witness :
  let s := set_cur_vts 2300 (imx415_probe_session 4) in
  0 < rpm_next quiet /\
  exists w' ret,
    imx415_set_ctrl V4L2_CID_EXPOSURE 2292 (s, quiet) = ((s, w'), ret) /\
    wire w' = wire quiet
              ++ [ Send [0x30; 0x50; u32 (cur_vts s - 2292) mod 2 ^ 8];
                   Send [0x30; 0x51; (u32 (cur_vts s - 2292) / 2 ^ 8) mod 2 ^ 8];
                   Send [0x30; 0x52; (u32 (cur_vts s - 2292) / 2 ^ 16) mod 2 ^ 4] ] /\
    (0 <= cur_vts s - 2292 < 2 ^ 20 ->
     u32 (cur_vts s - 2292) = cur_vts s - 2292 /\
     u32 (cur_vts s - 2292) mod 2 ^ 8
       + 2 ^ 8 * ((u32 (cur_vts s - 2292) / 2 ^ 8) mod 2 ^ 8)
       + 2 ^ 16 * ((u32 (cur_vts s - 2292) / 2 ^ 16) mod 2 ^ 4) = cur_vts s - 2292).
Proof.
  split; [reflexivity|].
  apply (imx415_set_exposure_shutter 2292
           (set_cur_vts 2300 (imx415_probe_session 4)) quiet).
  reflexivity.
Defined.

(** ** Mirror and flip *)

Lemma testbit_one j : Z.testbit 1 j = (j =? 0).
Proof. destruct j; reflexivity. Qed.

Ltac bool_cases :=
  repeat match goal with
    | |- context [?a <? ?b] => destruct (Z.ltb_spec a b)
    | |- context [?a =? ?b] => destruct (Z.eqb_spec a b)
    | |- context [?a <=? ?b] => destruct (Z.leb_spec a b)
    end.

(** The byte written back: bit [k] follows the request, every other bit is
    the one that was read. *)
Lemma flip_byte_bits k data (on : bool) i :
  0 <= k < 8 -> 0 <= i ->
  Z.testbit
    (Z.land (if on then u32 (Z.lor (data mod 2 ^ 8) (BIT k))
             else u32 (Z.land (data mod 2 ^ 8) (Z.lnot (BIT k)))) 0xff) i
  = if i =? k then on else Z.testbit (data mod 2 ^ 8) i.
Proof.
  intros Hk Hi. rewrite land_ff. unfold u32, BIT.
  destruct on.
  - rewrite !Z.testbit_mod_pow2, Z.lor_spec, Z.testbit_mod_pow2,
      Z.shiftl_spec, testbit_one by lia.
    bool_cases; cbn [andb orb]; try lia;
      rewrite ?andb_true_r, ?andb_false_r, ?orb_true_r, ?orb_false_r;
      try reflexivity.
  - rewrite !Z.testbit_mod_pow2, Z.land_spec, Z.testbit_mod_pow2,
      Z.lnot_spec, Z.shiftl_spec, testbit_one by lia.
    bool_cases; cbn [andb orb negb]; try lia;
      rewrite ?andb_true_r, ?andb_false_r, ?orb_true_r, ?orb_false_r;
      try reflexivity.
Qed.

(** C10. The mirror and flip setters first read the flip register.  When
    that read fails its error is the result and nothing is written: the read
    is the only transaction.  When it succeeds, one byte is written back to
    the same register in which bit 0 (mirror) or bit 1 (flip) is the
    requested state and every other bit is as read. *)
Theorem imx415_set_flip_read_modify_write id v s w :
  is_flip id = true -> 0 < rpm_next w ->
  exists w' ret,
    imx415_set_ctrl id v (s, w) = ((s, w'), ret) /\
    match reply_at w 0 with
    | Nack => ret = - EIO /\ wire w' = wire w ++ [ReadAt [0x30; 0x30] 1]
    | Ack data =>
        exists b,
          wire w' = wire w ++ [ReadAt [0x30; 0x30] 1; Send [0x30; 0x30; b]] /\
          ret = write_code (reply_at w 1) /\
          forall i, 0 <= i ->
            Z.testbit b i
            = if i =? flip_bit id then negb (v =? 0) else Z.testbit (data mod 2 ^ 8) i
    end.
Proof.
  intros Hid Hpm.
  assert (Hoff : (rpm_next w <=? 0) = false) by (apply Z.leb_gt; exact Hpm).
  unfold imx415_set_ctrl, imx415_set_ctrl_propagate.
  destruct id; try discriminate Hid;
    unfold imx415_set_ctrl_regs; rewrite pm_runtime_get_eq, Hoff;
    rewrite imx415_read_reg_08bit; bus_norm;
    destruct (reply_at w 0) as [data|] eqn:E0;
    cbn [write_code negb Z.eqb Z.opp EIO]; bus_norm.
  - eexists _, _. split; [reflexivity|].
    eexists. repeat apply conj.
    + cbn [wire transact pm_runtime_put]. rewrite <- app_assoc. reflexivity.
    + reflexivity.
    + intros i Hi. apply (flip_byte_bits 0 data (negb (v =? 0)) i); lia.
  - eexists _, _. split; [reflexivity|]. split; reflexivity.
  - eexists _, _. split; [reflexivity|].
    eexists. repeat apply conj.
    + cbn [wire transact pm_runtime_put]. rewrite <- app_assoc. reflexivity.
    + reflexivity.
    + intros i Hi. apply (flip_byte_bits 1 data (negb (v =? 0)) i); lia.
  - eexists _, _. split; [reflexivity|]. split; reflexivity.
Qed.

Lemma imx415_set_flip_read_modify_write_witness :
  let w := mkWorld [] [Nack] [] 0 in
  is_flip V4L2_CID_VFLIP = true /\ 0 < rpm_next w /\
  exists w' ret,
    imx415_set_ctrl V4L2_CID_VFLIP 1 (imx415_probe_session 4, w)
    = ((imx415_probe_session 4, w'), ret) /\
    match reply_at w 0 with
    | Nack => ret = - EIO /\ wire w' = wire w ++ [ReadAt [0x30; 0x30] 1]
    | Ack data =>
        exists b,
          wire w' = wire w ++ [ReadAt [0x30; 0x30] 1; Send [0x30; 0x30; b]] /\
          ret = write_code (reply_at w 1) /\
          forall i, 0 <= i ->
            Z.testbit b i
            = if i =? flip_bit V4L2_CID_VFLIP then negb (1 =? 0)
              else Z.testbit (data mod 2 ^ 8) i
    end.
Proof.
  split; [reflexivity|]. split; [reflexivity|].
  apply (imx415_set_flip_read_modify_write V4L2_CID_VFLIP 1
           (imx415_probe_session 4) (mkWorld [] [Nack] [] 0));
    reflexivity.
Defined.

(** ** Vertical blanking and the current VTS *)




(** ** Vertical blanking and the exposure range *)

(** C1 at a failing input.  After probe and a format selection, which brings
    the lower bound of the vertical blanking to 46, setting the vertical
    blanking to 46 on a powered device with a faultless bus returns 0; the
    new maximum asked for the exposure is 2192 + 46 - 4 = 2234, below the
    default 2292 that is passed along unchanged, so the range is refused:
    the maximum stays 2296 and the exposure 2292 is not brought down, while
    the current VTS is 2238. *)
Theorem imx415_set_vblank_exposure_max_stale :
  exists st1 f s' w',
    imx415_set_fmt true V4L2_SUBDEV_FORMAT_ACTIVE default_fmt
      (imx415_probe_session 4, quiet) = Done (st1, f, 0) /\
    minimum (vblank (fst st1)) = 46 /\ 46 <= maximum (vblank (fst st1)) /\
    check_range (minimum (exposure (fst st1)))
                (u32 (height (cur_mode (fst st1)) + 46 - 4))
                (step (exposure (fst st1)))
                (default_value (exposure (fst st1))) = - ERANGE /\
    imx415_set_ctrl V4L2_CID_VBLANK 46 st1 = ((s', w'), 0) /\
    height (cur_mode s') + 46 - 4 = 2234 /\
    maximum (exposure s') = 2296 /\
    cur_val (exposure s') = 2292 /\
    cur_vts s' = 2238.
Proof.
  eexists _, _, _, _.
  split; [vm_compute; reflexivity|].
  split; [reflexivity|]. split; [discriminate|]. split; [reflexivity|].
  split; [vm_compute; reflexivity|].
  repeat apply conj; reflexivity.
Qed.

(** ** Starting the stream *)

Lemma nth_skipn_add {A} (d : A) n : forall (l : list A) i,
  nth i (skipn n l) d = nth (n + i) l d.
Proof.
  induction n as [|n IH]; intros l i; [reflexivity|].
  destruct l as [|a l]; [destruct i; reflexivity | apply IH].
Qed.

Lemma ran_reply_at w w' n i : ran w w' n -> reply_at w' i = reply_at w (n + i).
Proof.
  intros (_ & Hs & _). unfold reply_at. rewrite Hs. apply nth_skipn_add.
Qed.

Lemma ran_compose w w1 w2 n1 n2 ret :
  ran w w1 n1 -> clean w n1 -> ran w1 w2 n2 -> verdict w1 n2 ret ->
  ran w w2 (n1 + n2) /\ verdict w (n1 + n2) ret.
Proof.
  intros H1 Hc H2 Hv.
  assert (Hat : forall i, reply_at w1 i = reply_at w (n1 + i))
    by (intro i; apply ran_reply_at; exact H1).
  assert (Hclean : forall m, clean w1 m -> clean w (n1 + m)).
  { intros m Hm i Hi. destruct (Nat.lt_ge_cases i n1) as [Hlt | Hge].
    - apply Hc. exact Hlt.
    - replace i with (n1 + (i - n1))%nat by lia. rewrite <- Hat. apply Hm. lia. }
  split.
  - destruct H1 as (Hw1 & Hs1 & Hr1 & Hu1), H2 as (Hw2 & Hs2 & Hr2 & Hu2).
    repeat apply conj.
    + lia.
    + rewrite Hs2, Hs1, skipn_skipn. f_equal. lia.
    + congruence.
    + congruence.
  - destruct Hv as [[Hz Hm] | (He & Hpos & Hm & Hlast)].
    + left. split; [exact Hz | apply Hclean; exact Hm].
    + right. repeat apply conj.
      * exact He.
      * lia.
      * replace (n1 + n2 - 1)%nat with (n1 + (n2 - 1))%nat by lia.
        apply Hclean. exact Hm.
      * replace (n1 + n2 - 1)%nat with (n1 + (n2 - 1))%nat by lia.
        rewrite <- Hat. exact Hlast.
Qed.

Lemma imx415_write_array_ran regs w w' ret :
  imx415_write_array regs w = Done (w', ret) ->
  exists n, ran w w' n /\ verdict w n ret.
Proof.
  intros H. apply imx415_write_array_done in H.
  destruct H as (n & Hn & _ & Hw & Hs & Hr & Hu & Hpre & Hres).
  exists n. split.
  - repeat apply conj; try assumption.
    rewrite Hw, length_app, length_map, length_firstn. lia.
  - destruct Hres as [[Hz Hall] | (He & Hpos & Hlast)].
    + left. split; assumption.
    + right. repeat apply conj; try assumption.
      intros i Hi. apply Hpre. lia.
Qed.

Lemma imx415_write_reg_ran r v w w' ret :
  imx415_write_reg r IMX415_REG_VALUE_08BIT v w = (w', ret) ->
  ran w w' 1 /\ verdict w 1 ret.
Proof.
  rewrite imx415_write_reg_08bit. intros H. injection H as <- <-. split.
  - unfold ran, transact; cbn [wire script rpm_script rpm_usage].
    repeat apply conj; try reflexivity.
    rewrite length_app. reflexivity.
  - rewrite next_reply_at.
    destruct (write_code_cases (reply_at w 0)) as [[Hc Ha] | [Hc Hn]]; rewrite Hc.
    + left. split; [reflexivity|]. intros i Hi.
      replace i with 0%nat by lia. exact Ha.
    + right. repeat apply conj; [reflexivity | lia | intros i Hi; simpl in Hi; lia | exact Hn].
Qed.

Lemma verdict_zero w n : verdict w n 0 -> clean w n.
Proof. intros [[_ H] | [H _]]; [exact H | discriminate H]. Qed.

(** A start sequence that returns has issued some number of writes, stopped
    at the first one refused, and returns its error. *)
Lemma __imx415_start_stream_ran s w w' ret :
  __imx415_start_stream s w = Done (w', ret) ->
  exists n, ran w w' n /\ verdict w n ret.
Proof.
  unfold __imx415_start_stream. intros H.
  destruct (imx415_write_array imx415_common_regs w) as [[w1 r1]|] eqn:E1;
    [|discriminate].
  apply imx415_write_array_ran in E1. destruct E1 as (n1 & Hran1 & Hv1).
  destruct (Z.eqb_spec r1 0) as [-> | Hr1]; cbn [negb] in H.
  - apply verdict_zero in Hv1.
    destruct (imx415_write_array (reg_list (cur_mode s)) w1) as [[w2 r2]|] eqn:E2;
      [|discriminate].
    apply imx415_write_array_ran in E2. destruct E2 as (n2 & Hran2 & Hv2).
    destruct (ran_compose _ _ _ _ _ _ Hran1 Hv1 Hran2 Hv2) as [Hran12 Hv12].
    destruct (Z.eqb_spec r2 0) as [-> | Hr2]; cbn [negb] in H.
    + apply verdict_zero in Hv12.
      destruct (imx415_write_reg IMX415_REG_STANDBY IMX415_REG_VALUE_08BIT 0 w2)
        as [w3 r3] eqn:E3.
      injection H as <- <-.
      apply imx415_write_reg_ran in E3. destruct E3 as [Hran3 Hv3].
      exists (n1 + n2 + 1)%nat.
      exact (ran_compose _ _ _ _ _ _ Hran12 Hv12 Hran3 Hv3).
    + injection H as <- <-. exists (n1 + n2)%nat. split; assumption.
  - injection H as <- <-. exists n1. split; assumption.
Qed.

Lemma imx415_write_array_refused regs : forall w k,
  Forall (fun e => reg e <> REG_NULL) regs ->
  (k < length regs)%nat -> reply_at w k = Nack ->
  exists w', imx415_write_array regs w = Done (w', - EIO).
Proof.
  induction regs as [|e rest IH]; intros w k Hregs Hk Hnack; simpl in Hk; [lia|].
  inversion Hregs as [|e' l' He Hrest]; subst.
  simpl. destruct (reg e =? REG_NULL) eqn:Enull;
    [apply Z.eqb_eq in Enull; contradiction|].
  rewrite imx415_write_reg_08bit.
  destruct (write_code_cases (next_reply w)) as [[Hc Ha] | [Hc Hn]]; rewrite Hc.
  - simpl. destruct k as [|k].
    + rewrite next_reply_at, Hnack in Ha. discriminate Ha.
    + apply (IH _ k Hrest); [lia|]. rewrite reply_at_transact. exact Hnack.
  - eexists. reflexivity.
Qed.



(** ** Best-fit mode selection *)

Lemma abs_int_u32 x : - 2 ^ 30 < x < 2 ^ 30 -> abs_int (u32 x) = Z.abs x.
Proof.
  unfold abs_int, s32, u32.
  change (2 ^ 30) with 1073741824. change (2 ^ 31) with 2147483648.
  change (2 ^ 32) with 4294967296. intros H.
  rewrite Z.mod_mod by lia.
  destruct (Z.lt_ge_cases x 0) as [Hneg | Hpos].
  - assert (Hx : x mod 4294967296 = x + 4294967296)
      by (Z.div_mod_to_equations; lia).
    rewrite Hx.
    destruct (Z.ltb_spec (x + 4294967296) 2147483648); [lia|].
    destruct (Z.ltb_spec (x + 4294967296 - 4294967296) 0); [|lia].
    assert (Hn : (- (x + 4294967296 - 4294967296)) mod 4294967296 = - x)
      by (Z.div_mod_to_equations; lia).
    rewrite Hn. destruct (Z.ltb_spec (- x) 2147483648); lia.
  - assert (Hx : x mod 4294967296 = x)
      by (Z.div_mod_to_equations; lia).
    rewrite Hx.
    destruct (Z.ltb_spec x 2147483648); [|lia].
    destruct (Z.ltb_spec x 0); lia.
Qed.

Lemma imx415_get_reso_dist_manhattan m f :
  small_mode m -> small (f_width f) -> small (f_height f) ->
  imx415_get_reso_dist m f = manhattan m f.
Proof.
  unfold small_mode, small, imx415_get_reso_dist, manhattan.
  intros [Hw Hh] Hfw Hfh.
  rewrite !abs_int_u32 by lia.
  unfold s32. change (2 ^ 30) with 1073741824 in *.
  change (2 ^ 31) with 2147483648. change (2 ^ 32) with 4294967296.
  assert (Hs : 0 <= Z.abs (width m - f_width f) + Z.abs (height m - f_height f)
               < 2147483648) by lia.
  rewrite Z.mod_small by lia.
  destruct (Z.ltb_spec (Z.abs (width m - f_width f) + Z.abs (height m - f_height f))
              2147483648); lia.
Qed.

Section BestFit.
Variable f : v4l2_mbus_framefmt.
Hypothesis f_small : small (f_width f) /\ small (f_height f).

Lemma manhattan_nonneg m : 0 <= manhattan m f.
Proof. unfold manhattan. lia. Qed.

Lemma nth_error_snoc (pre : list imx415_mode) m j mj :
  nth_error (pre ++ [m]) j = Some mj ->
  ((j < length pre)%nat /\ nth_error pre j = Some mj)
  \/ (j = length pre /\ mj = m).
Proof.
  intros H. rewrite nth_error_app in H.
  destruct (Nat.ltb_spec j (length pre)) as [Hlt | Hge].
  - left. split; assumption.
  - right. destruct (j - length pre)%nat as [|d] eqn:Ed; simpl in H.
    + injection H as <-. split; [lia | reflexivity].
    + destruct d; discriminate H.
Qed.

Lemma fit_take pre m best bd :
  fit f pre best bd ->
  (bd = -1 \/ manhattan m f <= bd) -> bus_fmt m = f_code f ->
  fit f (pre ++ [m]) (Z.of_nat (length pre)) (manhattan m f).
Proof.
  intros Hfit Hnear Hfmt. right. exists (length pre), m.
  repeat apply conj; try reflexivity.
  - rewrite nth_error_app2, Nat.sub_diag by lia. reflexivity.
  - exact Hfmt.
  - intros j mj Hj Hmj.
    destruct (nth_error_snoc _ _ _ _ Hj) as [[Hlt Hpre] | [-> ->]]; [|lia].
    destruct Hfit as [(_ & _ & Hnone) | (kb & mb & _ & _ & _ & Hbd & Hall)].
    + exfalso. exact (Hnone j mj Hpre Hmj).
    + destruct (Hall j mj Hpre Hmj) as [Hle _].
      pose proof (manhattan_nonneg mb). lia.
Qed.

Lemma fit_skip pre m best bd :
  fit f pre best bd ->
  bus_fmt m <> f_code f \/ (bd <> -1 /\ bd < manhattan m f) ->
  fit f (pre ++ [m]) best bd.
Proof.
  intros [(Hbd & Hbest & Hnone) | (kb & mb & Hbest & Hkb & Hfmt & Hbd & Hall)] Hskip.
  - left. repeat apply conj; try assumption.
    intros j mj Hj.
    destruct (nth_error_snoc _ _ _ _ Hj) as [[Hlt Hpre] | [-> ->]].
    + exact (Hnone j mj Hpre).
    + destruct Hskip as [Hm | [Hne _]]; [exact Hm | contradiction].
  - right. exists kb, mb. repeat apply conj; try assumption.
    + rewrite nth_error_app1; [exact Hkb|].
      apply nth_error_Some. rewrite Hkb. discriminate.
    + intros j mj Hj Hmj.
      destruct (nth_error_snoc _ _ _ _ Hj) as [[Hlt Hpre] | [-> ->]].
      * exact (Hall j mj Hpre Hmj).
      * destruct Hskip as [Hm | [_ Hfar]]; [contradiction|]. lia.
Qed.

Lemma find_best_fit_from_fit (n : nat) : forall modes pre best bd,
  Forall small_mode modes ->
  (length pre <= n <= length (pre ++ modes))%nat ->
  fit f pre best bd ->
  exists k bd',
    find_best_fit_from modes (Z.of_nat (length pre)) (Z.of_nat n) f best bd = Done k /\
    fit f (firstn n (pre ++ modes)) k bd'.
Proof.
  induction modes as [|m rest IH]; intros pre best bd Hsmall Hn Hfit.
  - rewrite app_nil_r in *. assert (n = length pre) by lia. subst n.
    cbn [find_best_fit_from]. rewrite Z.ltb_irrefl.
    exists best, bd. rewrite firstn_all. split; [reflexivity | exact Hfit].
  - inversion Hsmall as [|m' l' Hm Hrest]; subst.
    cbn [find_best_fit_from].
    destruct (Z.ltb_spec (Z.of_nat (length pre)) (Z.of_nat n)) as [Hlt | Hge].
    + rewrite imx415_get_reso_dist_manhattan by (tauto || assumption).
      assert (Hnext : Z.of_nat (length pre) + 1 = Z.of_nat (length (pre ++ [m])))
        by (rewrite length_app; simpl; lia).
      assert (Hcat : (pre ++ [m]) ++ rest = pre ++ m :: rest)
        by (rewrite <- app_assoc; reflexivity).
      assert (Hn' : (length (pre ++ [m]) <= n <= length ((pre ++ [m]) ++ rest))%nat)
        by (rewrite Hcat; rewrite length_app; simpl; lia).
      rewrite Hnext.
      destruct (((bd =? -1) || (manhattan m f <=? bd)) && (bus_fmt m =? f_code f))
        eqn:Etake.
      * apply andb_true_iff in Etake. destruct Etake as [Enear Efmt].
        apply orb_true_iff in Enear. apply Z.eqb_eq in Efmt.
        assert (Hnear : bd = -1 \/ manhattan m f <= bd)
          by (destruct Enear as [E | E];
              [left; apply Z.eqb_eq; exact E | right; apply Z.leb_le; exact E]).
        destruct (IH (pre ++ [m]) _ _ Hrest Hn' (fit_take _ _ _ _ Hfit Hnear Efmt))
          as (k & bd' & Hrun & Hk).
        exists k, bd'. rewrite <- Hcat. split; assumption.
      * apply andb_false_iff in Etake.
        assert (Hskip : bus_fmt m <> f_code f \/ (bd <> -1 /\ bd < manhattan m f)).
        { destruct Etake as [Efar | Efmt].
          - apply orb_false_iff in Efar. destruct Efar as [E1 E2].
            apply Z.eqb_neq in E1. apply Z.leb_gt in E2. right. split; assumption.
          - left. apply Z.eqb_neq. exact Efmt. }
        destruct (IH (pre ++ [m]) _ _ Hrest Hn' (fit_skip _ _ _ _ Hfit Hskip))
          as (k & bd' & Hrun & Hk).
        exists k, bd'. rewrite <- Hcat. split; assumption.
    + assert (n = length pre) by lia. subst n.
      exists best, bd. split; [reflexivity|].
      rewrite firstn_app, firstn_all, Nat.sub_diag, app_nil_r. exact Hfit.
Qed.
End BestFit.

Lemma nth_error_firstn_Some {A} (l : list A) n j x :
  nth_error (firstn n l) j = Some x <-> (j < n)%nat /\ nth_error l j = Some x.
Proof.
  rewrite nth_error_firstn.
  destruct (Nat.ltb_spec j n) as [Hlt | Hge]; split; intros Hx;
    try tauto; try discriminate; try lia.
Qed.




(** ** Where the exposure range does follow the vertical blanking *)

Lemma ROUND_TO_RANGE_step_1 x c :
  step c = 1 -> minimum c <= maximum c -> 0 <= maximum c ->
  ROUND_TO_RANGE x c = clamp x (minimum c) (maximum c).
Proof.
  intros Hstep Hrange Hmax. unfold ROUND_TO_RANGE, clamp. rewrite Hstep.
  change (1 / 2) with 0. rewrite Z.div_1_r, Z.sub_0_r, Z.add_0_r.
  destruct (Z.leb_spec 0 (maximum c)); [|lia].
  destruct (Z.leb_spec (maximum c) x); cbn [andb]; lia.
Qed.

Lemma imx415_set_ctrl_regs_exposure_indep e c s w :
  imx415_set_ctrl_regs V4L2_CID_EXPOSURE e (set_exposure c s, w)
  = (let '((_, w'), r) := imx415_set_ctrl_regs V4L2_CID_EXPOSURE e (s, w) in
     ((set_exposure c s, w'), r)).
Proof.
  unfold imx415_set_ctrl_regs. rewrite pm_runtime_get_eq.
  destruct (rpm_next w <=? 0); [reflexivity|].
  bus_norm. reflexivity.
Qed.

(** When the default exposure does not exceed the new maximum
    [height + v - 4], setting the vertical blanking [v] installs that maximum;
    an exposure within the new range stays, and one above it is brought down
    to the new maximum provided the exposure write that this triggers
    returns 0. *)
Lemma imx415_set_vblank_exposure_range v s w :
  let M := height (cur_mode s) + v - 4 in
  step (exposure s) = 1 ->
  0 <= minimum (exposure s) <= default_value (exposure s) ->
  default_value (exposure s) <= M < 2 ^ 32 ->
  minimum (exposure s) <= cur_val (exposure s) ->
  let s' := fst (fst (imx415_set_ctrl V4L2_CID_VBLANK v (s, w))) in
  maximum (exposure s') = M /\
  minimum (exposure s') = minimum (exposure s) /\
  (cur_val (exposure s) <= M -> cur_val (exposure s') = cur_val (exposure s)) /\
  (M < cur_val (exposure s) ->
   snd (imx415_set_ctrl V4L2_CID_EXPOSURE M (s, w)) = 0 ->
   cur_val (exposure s') = M).
Proof.
  intros M Hstep Hmin Hdef Hcur s'.
  assert (HM : u32 (height (cur_mode s) + v - 4) = M)
    by (unfold u32; apply Z.mod_small; unfold M in *; lia).
  assert (Hregs : exposure s'
                  = exposure (fst (imx415_set_ctrl_propagate V4L2_CID_VBLANK v (s, w)))).
  { unfold s', imx415_set_ctrl.
    destruct (imx415_set_ctrl_propagate V4L2_CID_VBLANK v (s, w)) as [s1 w1].
    rewrite imx415_set_ctrl_regs_session.
    destruct (0 <? rpm_next w1); reflexivity. }
  rewrite Hregs. clear Hregs s'.
  unfold imx415_set_ctrl_propagate, __v4l2_ctrl_modify_range.
  cbn [fst]. rewrite HM.
  assert (Hchk : check_range (minimum (exposure s)) M (step (exposure s))
                             (default_value (exposure s)) = 0).
  { unfold check_range. rewrite Hstep.
    destruct (Z.ltb_spec M (minimum (exposure s))); [lia|].
    destruct (Z.ltb_spec (default_value (exposure s)) (minimum (exposure s))); [lia|].
    destruct (Z.ltb_spec M (default_value (exposure s))); [lia|]. reflexivity. }
  rewrite Hchk. cbn [negb Z.eqb].
  unfold dev_exposure, dev_set_exposure. cbn [fst snd cur_val].
  rewrite ROUND_TO_RANGE_step_1 by (cbn [step minimum maximum]; lia).
  cbn [minimum maximum]. unfold clamp.
  destruct (Z.eqb_spec (Z.min (Z.max (cur_val (exposure s)) (minimum (exposure s))) M)
              (cur_val (exposure s))) as [Hsame | Hdiff].
  - cbn. repeat apply conj; try reflexivity. intros Hgt. lia.
  - assert (Hgt : M < cur_val (exposure s)) by lia.
    replace (Z.min (Z.max (cur_val (exposure s)) (minimum (exposure s))) M)
      with M by lia.
    rewrite imx415_set_ctrl_regs_exposure_indep.
    unfold imx415_set_ctrl, imx415_set_ctrl_propagate.
    destruct (imx415_set_ctrl_regs V4L2_CID_EXPOSURE M (s, w)) as [[s2 w2] r].
    cbn [snd].
    destruct (Z.eqb_spec r 0) as [Hr | Hr]; cbn [negb fst snd];
      repeat apply conj; try reflexivity; try lia.
Qed.

(** * Further properties of the driver *)

(** ** Register writes of any width *)

Lemma be_value_payload v len :
  0 <= len <= 4 ->
  be_value (skipn (Z.to_nat (4 - len)) (cpu_to_be32 v)) = v mod 2 ^ (8 * len).
Proof.
  intros Hlen.
  assert (Hcases : len = 0 \/ len = 1 \/ len = 2 \/ len = 3 \/ len = 4) by lia.
  unfold cpu_to_be32. rewrite !land_ff, !Z.shiftr_div_pow2 by lia.
  change (2 ^ 8) with 256. change (2 ^ 16) with 65536. change (2 ^ 24) with 16777216.
  unfold be_value.
  destruct Hcases as [-> | [-> | [-> | [-> | ->]]]].
  - change (Z.to_nat (4 - 0)) with 4%nat. change (2 ^ (8 * 0)) with 1.
    cbn [skipn fold_left]. symmetry. apply Z.mod_1_r.
  - change (Z.to_nat (4 - 1)) with 3%nat. change (2 ^ (8 * 1)) with 256.
    cbn [skipn fold_left]. Z.div_mod_to_equations. lia.
  - change (Z.to_nat (4 - 2)) with 2%nat. change (2 ^ (8 * 2)) with 65536.
    cbn [skipn fold_left]. Z.div_mod_to_equations. lia.
  - change (Z.to_nat (4 - 3)) with 1%nat. change (2 ^ (8 * 3)) with 16777216.
    cbn [skipn fold_left]. Z.div_mod_to_equations. lia.
  - change (Z.to_nat (4 - 4)) with 0%nat. change (2 ^ (8 * 4)) with 4294967296.
    cbn [skipn fold_left]. Z.div_mod_to_equations. lia.
Qed.



(** ** Tables without a sentinel *)

(** X2. On a table none of whose entries is the sentinel, the table
    application reads past the end of the table once every write has been
    acknowledged; when the write of entry [k] is the first one refused it
    returns the I/O error after writing entries 0 to [k] and nothing more. *)
Theorem imx415_write_array_no_sentinel regs : forall w,
  Forall (fun e => reg e <> REG_NULL) regs ->
  (clean w (length regs) -> imx415_write_array regs w = Overrun) /\
  (forall k, (k < length regs)%nat -> clean w k -> reply_at w k = Nack ->
     exists w',
       imx415_write_array regs w = Done (w', - EIO) /\
       wire w' = wire w ++ map frame_of (firstn (S k) regs)).
Proof.
  induction regs as [|e rest IH]; intros w Hregs.
  - split; [reflexivity | intros k Hk; simpl in Hk; lia].
  - inversion Hregs as [|e' l' He Hrest]; subst.
    assert (Enull : (reg e =? REG_NULL) = false) by (apply Z.eqb_neq; exact He).
    cbn [imx415_write_array]. rewrite Enull, imx415_write_reg_08bit.
    destruct (IH (transact (frame_of e) w) Hrest) as [IHclean IHfail].
    split.
    + intros Hclean.
      assert (Ha : acked (reply_at w 0) = true) by (apply Hclean; simpl; lia).
      rewrite next_reply_at.
      destruct (reply_at w 0); [|discriminate Ha]. cbn [write_code Z.eqb].
      apply IHclean. intros i Hi. rewrite reply_at_transact.
      apply Hclean. simpl. lia.
    + intros k Hk Hclean Hnack. rewrite next_reply_at.
      destruct k as [|k].
      * rewrite Hnack. cbn [write_code]. unfold EIO. cbn.
        eexists. split; reflexivity.
      * assert (Ha : acked (reply_at w 0) = true) by (apply Hclean; lia).
        destruct (reply_at w 0); [|discriminate Ha]. cbn [write_code Z.eqb].
        destruct (IHfail k) as (w' & Hrun & Hw).
        -- simpl in Hk. lia.
        -- intros i Hi. rewrite reply_at_transact. apply Hclean. lia.
        -- rewrite reply_at_transact. exact Hnack.
        -- exists w'. split; [exact Hrun|].
           rewrite Hw. cbn [wire transact]. rewrite <- app_assoc. reflexivity.
Qed.

Lemma imx415_write_array_no_sentinel_witness :
  Forall (fun e => reg e <> REG_NULL) imx415_common_regs /\
  clean quiet (length imx415_common_regs) /\
  imx415_write_array imx415_common_regs quiet = Overrun.
Proof.
  assert (Hc : clean quiet (length imx415_common_regs)).
  { intros i _. unfold reply_at, quiet. cbn [script]. destruct i; reflexivity. }
  split; [exact (proj1 imx415_common_regs_unterminated)|].
  split; [exact Hc|].
  exact (proj1 (imx415_write_array_no_sentinel imx415_common_regs quiet
                  (proj1 imx415_common_regs_unterminated)) Hc).
Defined.

(** ** The start sequence as written *)

Lemma imx415_write_array_runs_off regs : forall w,
  Forall (fun e => reg e <> REG_NULL) regs ->
  clean w (length regs) -> imx415_write_array regs w = Overrun.
Proof.
  induction regs as [|e rest IH]; intros w Hregs Hclean; [reflexivity|].
  inversion Hregs as [|e' l' He Hrest]; subst.
  cbn [imx415_write_array].
  replace (reg e =? REG_NULL) with false by (symmetry; apply Z.eqb_neq; exact He).
  rewrite imx415_write_reg_08bit, next_reply_at.
  assert (Ha : acked (reply_at w 0) = true) by (apply Hclean; simpl; lia).
  destruct (reply_at w 0); [|discriminate Ha]. cbn [write_code Z.eqb].
  apply IH; [exact Hrest|].
  intros i Hi. rewrite reply_at_transact. apply Hclean. simpl. lia.
Qed.

Lemma imx415_write_array_only_fails regs : forall w w' ret,
  Forall (fun e => reg e <> REG_NULL) regs ->
  imx415_write_array regs w = Done (w', ret) -> ret = - EIO.
Proof.
  induction regs as [|e rest IH]; intros w w' ret Hregs H; [discriminate H|].
  inversion Hregs as [|e' l' He Hrest]; subst.
  cbn [imx415_write_array] in H.
  replace (reg e =? REG_NULL) with false in H
    by (symmetry; apply Z.eqb_neq; exact He).
  rewrite imx415_write_reg_08bit in H.
  destruct (next_reply w); cbn [write_code] in H.
  - cbn [Z.eqb] in H. exact (IH _ _ _ Hrest H).
  - unfold EIO in *. cbn in H. injection H as _ <-. reflexivity.
Qed.

(** X3. A start requested in standby never returns 0.  The table of common
    registers has no sentinel, so once the resume has succeeded and its 72
    writes have all been acknowledged the table application reads past the
    end of the table; in every other case the start returns an error. *)
Theorem imx415_s_stream_start_never_succeeds s w on :
  let w1 := fst (pm_runtime_get_sync w) in
  streaming s = false -> on <> 0 ->
  (forall st' ret, imx415_s_stream on (s, w) = Done (st', ret) -> ret <> 0) /\
  (0 <= rpm_next w -> clean w1 (length imx415_common_regs) ->
   imx415_s_stream on (s, w) = Overrun) /\
  (rpm_next w < 0
   \/ (exists k, (k < length imx415_common_regs)%nat /\ reply_at w1 k = Nack) ->
   exists st' ret, imx415_s_stream on (s, w) = Done (st', ret)).
Proof.
  intros w1 Hstandby Hon. subst w1.
  assert (Eon : negb (on =? 0) = true)
    by (apply negb_true_iff, Z.eqb_neq; exact Hon).
  pose proof (proj1 imx415_common_regs_unterminated) as Hregs.
  unfold imx415_s_stream. rewrite Eon, Hstandby. cbn [Bool.eqb].
  unfold pm_runtime_get_sync. rewrite pm_runtime_get_eq. cbn [fst].
  set (w0 := mkWorld (wire w) (script w) (tl (rpm_script w)) (rpm_usage w + 1)).
  repeat apply conj.
  - intros st' ret H.
    destruct (Z.ltb_spec (rpm_next w) 0) as [Hneg | Hpos].
    + injection H as _ <-. lia.
    + unfold __imx415_start_stream in H.
      destruct (imx415_write_array imx415_common_regs w0) as [[w2 r2]|] eqn:E;
        [|discriminate].
      apply (imx415_write_array_only_fails _ _ _ _ Hregs) in E. subst r2.
      unfold EIO in H. cbn in H. injection H as _ <-. discriminate.
  - intros Hpos Hclean.
    replace (rpm_next w <? 0) with false by (symmetry; apply Z.ltb_ge; exact Hpos).
    unfold __imx415_start_stream.
    rewrite (imx415_write_array_runs_off _ _ Hregs Hclean). reflexivity.
  - intros [Hneg | (k & Hk & Hnack)].
    + replace (rpm_next w <? 0) with true by (symmetry; apply Z.ltb_lt; exact Hneg).
      eexists _, _. reflexivity.
    + destruct (rpm_next w <? 0); [eexists _, _; reflexivity|].
      destruct (imx415_write_array_refused imx415_common_regs w0 k Hregs Hk Hnack)
        as [w2 Hrun].
      unfold __imx415_start_stream. rewrite Hrun. cbn.
      eexists _, _. reflexivity.
Qed.

Lemma imx415_s_stream_start_never_succeeds_witness :
  let s := imx415_probe_session 4 in
  streaming s = false /\ 1 <> 0 /\ 0 <= rpm_next quiet /\
  clean (fst (pm_runtime_get_sync quiet)) (length imx415_common_regs) /\
  imx415_s_stream 1 (s, quiet) = Overrun.
Proof.
  assert (Hc : clean (fst (pm_runtime_get_sync quiet)) (length imx415_common_regs)).
  { intros i _. unfold reply_at. cbn. destruct i; reflexivity. }
  split; [reflexivity|]. split; [discriminate|]. split; [discriminate|].
  split; [exact Hc|].
  apply (proj1 (proj2 (imx415_s_stream_start_never_succeeds
                         (imx415_probe_session 4) quiet 1 eq_refl
                         ltac:(discriminate)))).
  - discriminate.
  - exact Hc.
Defined.



(** ** Stopping the stream *)

(** X5. A stop requested while streaming always succeeds: it writes 1 to the
    standby register, whatever the reply to that write is, clears the
    streaming flag, drops one runtime-PM reference and returns 0. *)
Theorem imx415_s_stream_stop s w :
  streaming s = true ->
  exists w',
    imx415_s_stream 0 (s, w) = Done ((set_streaming false s, w'), 0) /\
    wire w' = wire w ++ [Send [0x30; 0x00; 0x01]] /\
    script w' = tl (script w) /\
    rpm_usage w' = rpm_usage w - 1.
Proof.
  intros Hs. unfold imx415_s_stream. rewrite Hs. cbn [Z.eqb negb Bool.eqb].
  unfold __imx415_stop_stream. rewrite imx415_write_reg_08bit.
  eexists. split; [reflexivity|]. repeat apply conj; reflexivity.
Qed.

Lemma imx415_s_stream_stop_witness :
  let s := set_streaming true (imx415_probe_session 4) in
  let w := mkWorld [] [Nack] [] 1 in
  streaming s = true /\
  exists w',
    imx415_s_stream 0 (s, w) = Done ((set_streaming false s, w'), 0) /\
    wire w' = wire w ++ [Send [0x30; 0x00; 0x01]] /\
    script w' = tl (script w) /\
    rpm_usage w' = rpm_usage w - 1.
Proof.
  split; [reflexivity|].
  apply (imx415_s_stream_stop (set_streaming true (imx415_probe_session 4))
           (mkWorld [] [Nack] [] 1)).
  reflexivity.
Defined.

(** ** The control handler and runtime PM *)

Lemma imx415_set_ctrl_regs_rpm id v s w :
  rpm_script (snd (fst (imx415_set_ctrl_regs id v (s, w)))) = tl (rpm_script w) /\
  rpm_usage (snd (fst (imx415_set_ctrl_regs id v (s, w))))
  = rpm_usage w + (if rpm_next w <=? 0 then 1 else 0).
Proof.
  unfold imx415_set_ctrl_regs. rewrite pm_runtime_get_eq.
  destruct (rpm_next w <=? 0); [cbn; split; [reflexivity | lia]|].
  destruct id; bus_norm; try rewrite imx415_read_reg_08bit;
    try (destruct (next_reply _); cbn [write_code negb Z.eqb Z.opp EIO]; bus_norm);
    cbn; split; try reflexivity; lia.
Qed.

Lemma imx415_set_ctrl_regs_quiet_when_off id v s w :
  rpm_next w <= 0 ->
  imx415_set_ctrl_regs id v (s, w)
  = ((s, mkWorld (wire w) (script w) (tl (rpm_script w)) (rpm_usage w + 1)), 0).
Proof.
  intros Hoff. unfold imx415_set_ctrl_regs. rewrite pm_runtime_get_eq.
  replace (rpm_next w <=? 0) with true by (symmetry; apply Z.leb_le; exact Hoff).
  reflexivity.
Qed.

(** X6. The power check of the control handler takes a runtime-PM reference
    whatever its answer.  When the answer is that the device is not powered
    the handler returns 0 at once, with nothing put on the bus and the
    reference kept: the usage counter is one higher than before.  When the
    device is powered the reference is dropped again before returning.
    [st1] is the state in which the power check is made. *)
Theorem imx415_set_ctrl_power_reference id v st :
  let st1 := imx415_set_ctrl_propagate id v st in
  (rpm_next (snd st1) <= 0 ->
   imx415_set_ctrl id v st
   = ((fst st1,
       mkWorld (wire (snd st1)) (script (snd st1)) (tl (rpm_script (snd st1)))
               (rpm_usage (snd st1) + 1)), 0)) /\
  (0 < rpm_next (snd st1) ->
   rpm_usage (snd (fst (imx415_set_ctrl id v st))) = rpm_usage (snd st1)).
Proof.
  intros st1. unfold imx415_set_ctrl. fold st1. destruct st1 as [s1 w1].
  cbn [fst snd]. split.
  - apply imx415_set_ctrl_regs_quiet_when_off.
  - intros Hon.
    destruct (imx415_set_ctrl_regs_rpm id v s1 w1) as [_ Hu]. rewrite Hu.
    replace (rpm_next w1 <=? 0) with false by (symmetry; apply Z.leb_gt; exact Hon).
    lia.
Qed.

Lemma imx415_set_ctrl_power_reference_witness :
  let st := (imx415_probe_session 4, mkWorld [] [] [0] 0) in
  rpm_next (snd (imx415_set_ctrl_propagate V4L2_CID_ANALOGUE_GAIN 16 st)) <= 0 /\
  imx415_set_ctrl V4L2_CID_ANALOGUE_GAIN 16 st
  = ((imx415_probe_session 4, mkWorld [] [] [] 1), 0).
Proof.
  split; [discriminate|].
  apply (proj1 (imx415_set_ctrl_power_reference V4L2_CID_ANALOGUE_GAIN 16
                  (imx415_probe_session 4, mkWorld [] [] [0] 0))).
  discriminate.
Defined.

(** X7. Whatever control is set and whatever the environment answers, the
    control handler leaves the lane count, the current mode, the streaming
    and power flags, the number of modes and the horizontal and vertical
    blanking controls of the session as they were; for every control but the
    vertical blanking the whole session is unchanged. *)
Theorem imx415_set_ctrl_frame id v s w :
  let s' := fst (fst (imx415_set_ctrl id v (s, w))) in
  nlanes s' = nlanes s /\ cur_mode s' = cur_mode s /\
  streaming s' = streaming s /\ power_on s' = power_on s /\
  cfg_num s' = cfg_num s /\ hblank s' = hblank s /\ vblank s' = vblank s /\
  (id <> V4L2_CID_VBLANK -> s' = s).
Proof.
  intros s'. subst s'. unfold imx415_set_ctrl.
  destruct (imx415_set_ctrl_propagate_session id v s w) as [c Hc].
  destruct (imx415_set_ctrl_propagate id v (s, w)) as [s1 w1] eqn:Eprop.
  cbn [fst] in Hc. subst s1.
  rewrite imx415_set_ctrl_regs_session.
  repeat apply conj;
    try (destruct (0 <? rpm_next w1); destruct id; reflexivity).
  intros Hid. destruct id; try contradiction;
    cbn [imx415_set_ctrl_propagate] in Eprop; injection Eprop as Hs _;
    destruct (0 <? rpm_next w1); rewrite <- Hs; reflexivity.
Qed.

(** ** What the gain and VTS registers receive *)

Lemma land_07 x : Z.land x 0x07 = x mod 2 ^ 3.
Proof. change 0x07 with (Z.ones 3). apply Z.land_ones. lia. Qed.

(** X8. Setting the analogue gain [v] on a powered device writes
    [(v / 256) mod 8] to the high gain register and then [v mod 256] to the
    low one; for a gain of at most 11 bits the two bytes recombine to [v],
    and within the range of the control (0 to 0xf0) the high byte is 0 and
    the low byte is [v] itself. *)
Theorem imx415_set_gain_bytes v s w :
  0 < rpm_next w -> 0 <= v < 2 ^ 11 ->
  exists w' ret,
    imx415_set_ctrl V4L2_CID_ANALOGUE_GAIN v (s, w) = ((s, w'), ret) /\
    wire w' = wire w ++ [ Send [0x30; 0x91; (v / 2 ^ 8) mod 2 ^ 3];
                          Send [0x30; 0x90; v mod 2 ^ 8] ] /\
    2 ^ 8 * ((v / 2 ^ 8) mod 2 ^ 3) + v mod 2 ^ 8 = v /\
    (IMX415_GAIN_MIN <= v <= IMX415_GAIN_MAX ->
     (v / 2 ^ 8) mod 2 ^ 3 = 0 /\ v mod 2 ^ 8 = v).
Proof.
  intros Hpm Hv.
  destruct (imx415_set_ctrl_regs_group V4L2_CID_ANALOGUE_GAIN v s w eq_refl Hpm)
    as (s' & w' & ret & Hrun & Hs & Hw & _).
  subst s'. exists w', ret. repeat apply conj.
  - exact Hrun.
  - rewrite Hw. cbn [sub_writes].
    unfold frame8, IMX415_FETCH_GAIN_H, IMX415_FETCH_GAIN_L.
    rewrite !land_ff, land_07, !Z.shiftr_div_pow2 by lia.
    rewrite !Z.mod_mod by lia.
    assert (H3 : forall a, (a mod 2 ^ 3) mod 2 ^ 8 = a mod 2 ^ 3).
    { intro a. apply Z.mod_small.
      pose proof (Z.mod_pos_bound a (2 ^ 3) ltac:(lia)). lia. }
    rewrite H3. reflexivity.
  - change (2 ^ 11) with 2048 in Hv. change (2 ^ 8) with 256. change (2 ^ 3) with 8.
    Z.div_mod_to_equations. lia.
  - unfold IMX415_GAIN_MIN, IMX415_GAIN_MAX. intros Hrange.
    change (2 ^ 8) with 256. change (2 ^ 3) with 8.
    split; Z.div_mod_to_equations; lia.
Qed.

Lemma imx415_set_gain_bytes_witness :
  0 < rpm_next quiet /\ 0 <= 0xf0 < 2 ^ 11 /\
  exists w' ret,
    imx415_set_ctrl V4L2_CID_ANALOGUE_GAIN 0xf0 (imx415_probe_session 4, quiet)
    = ((imx415_probe_session 4, w'), ret) /\
    wire w' = wire quiet ++ [ Send [0x30; 0x91; (0xf0 / 2 ^ 8) mod 2 ^ 3];
                              Send [0x30; 0x90; 0xf0 mod 2 ^ 8] ] /\
    2 ^ 8 * ((0xf0 / 2 ^ 8) mod 2 ^ 3) + 0xf0 mod 2 ^ 8 = 0xf0 /\
    (IMX415_GAIN_MIN <= 0xf0 <= IMX415_GAIN_MAX ->
     (0xf0 / 2 ^ 8) mod 2 ^ 3 = 0 /\ 0xf0 mod 2 ^ 8 = 0xf0).
Proof.
  split; [reflexivity|]. split; [split; [discriminate | reflexivity]|].
  apply (imx415_set_gain_bytes 0xf0 (imx415_probe_session 4) quiet).
  - reflexivity.
  - split; [discriminate | reflexivity].
Defined.

(** X9. Setting the vertical blanking [v] on a powered device writes the new
    VTS [v + height] to the three VTS registers, low byte first; when it fits
    in 20 bits the three bytes recombine to it, and up to the largest VTS the
    control allows (0x7fff) the high byte is 0.  [st1] is the state in which
    the register stage starts. *)
Theorem imx415_set_vblank_vts_bytes v s w :
  let st1 := imx415_set_ctrl_propagate V4L2_CID_VBLANK v (s, w) in
  let vts := v + height (cur_mode s) in
  0 < rpm_next (snd st1) -> 0 <= vts < 2 ^ 20 ->
  exists s' w' ret,
    imx415_set_ctrl V4L2_CID_VBLANK v (s, w) = ((s', w'), ret) /\
    wire w' = wire (snd st1)
              ++ [ Send [0x30; 0x24; vts mod 2 ^ 8];
                   Send [0x30; 0x25; (vts / 2 ^ 8) mod 2 ^ 8];
                   Send [0x30; 0x26; (vts / 2 ^ 16) mod 2 ^ 4] ] /\
    vts mod 2 ^ 8 + 2 ^ 8 * ((vts / 2 ^ 8) mod 2 ^ 8)
      + 2 ^ 16 * ((vts / 2 ^ 16) mod 2 ^ 4) = vts /\
    (vts <= IMX415_VTS_MAX -> (vts / 2 ^ 16) mod 2 ^ 4 = 0).
Proof.
  intros st1 vts Hpm Hfit. unfold imx415_set_ctrl. fold st1.
  destruct (imx415_set_ctrl_propagate_session V4L2_CID_VBLANK v s w) as [c Hc].
  fold st1 in Hc. destruct st1 as [s1 w1]. cbn [fst snd] in *. subst s1.
  destruct (imx415_set_ctrl_regs_group V4L2_CID_VBLANK v (set_exposure c s) w1
              eq_refl Hpm) as (s' & w' & ret & Hrun & _ & Hw & _).
  exists s', w', ret. repeat apply conj.
  - exact Hrun.
  - rewrite Hw. cbn [sub_writes set_exposure cur_mode]. fold vts.
    assert (Hu : u32 vts = vts).
    { unfold u32. apply Z.mod_small.
      change (2 ^ 20) with 1048576 in Hfit. change (2 ^ 32) with 4294967296. lia. }
    rewrite Hu.
    unfold frame8, IMX415_FETCH_VTS_L, IMX415_FETCH_VTS_M, IMX415_FETCH_VTS_H.
    rewrite !land_ff, land_0f, !Z.shiftr_div_pow2 by lia.
    rewrite !Z.mod_mod by lia.
    assert (H4 : forall a, (a mod 2 ^ 4) mod 2 ^ 8 = a mod 2 ^ 4).
    { intro a. apply Z.mod_small.
      pose proof (Z.mod_pos_bound a (2 ^ 4) ltac:(lia)). lia. }
    rewrite H4. reflexivity.
  - apply three_bytes. exact Hfit.
  - unfold IMX415_VTS_MAX. intros Hmax.
    change (2 ^ 16) with 65536. change (2 ^ 4) with 16.
    Z.div_mod_to_equations. lia.
Qed.

Lemma imx415_set_vblank_vts_bytes_witness :
  let st := (imx415_probe_session 4, quiet) in
  0 < rpm_next (snd (imx415_set_ctrl_propagate V4L2_CID_VBLANK 108 st)) /\
  0 <= 108 + height (cur_mode (fst st)) < 2 ^ 20 /\
  exists s' w' ret,
    imx415_set_ctrl V4L2_CID_VBLANK 108 st = ((s', w'), ret) /\
    wire w' = [ Send [0x30; 0x24; 0xFC]; Send [0x30; 0x25; 0x08];
                Send [0x30; 0x26; 0x00] ].
Proof.
  split; [reflexivity|]. split; [split; [discriminate | reflexivity]|].
  destruct (imx415_set_vblank_vts_bytes 108 (imx415_probe_session 4) quiet)
    as (s' & w' & ret & Hrun & Hw & _).
  - reflexivity.
  - split; [discriminate | reflexivity].
  - exists s', w', ret. split; [exact Hrun|]. rewrite Hw. reflexivity.
Defined.

(** ** Exposure relative to the current VTS *)

Lemma expo_frames shr0 :
  [ frame8 IMX415_LF_EXPO_REG_L (IMX415_FETCH_EXP_L shr0);
    frame8 IMX415_LF_EXPO_REG_M (IMX415_FETCH_EXP_M shr0);
    frame8 IMX415_LF_EXPO_REG_H (IMX415_FETCH_EXP_H shr0) ]
  = [ Send [0x30; 0x50; shr0 mod 2 ^ 8];
      Send [0x30; 0x51; (shr0 / 2 ^ 8) mod 2 ^ 8];
      Send [0x30; 0x52; (shr0 / 2 ^ 16) mod 2 ^ 4] ].
Proof.
  unfold frame8, IMX415_FETCH_EXP_L, IMX415_FETCH_EXP_M, IMX415_FETCH_EXP_H.
  rewrite !land_ff, land_0f, !Z.shiftr_div_pow2 by lia.
  rewrite !Z.mod_mod by lia.
  assert (H4 : forall a, (a mod 2 ^ 4) mod 2 ^ 8 = a mod 2 ^ 4).
  { intro a. apply Z.mod_small.
    pose proof (Z.mod_pos_bound a (2 ^ 4) ltac:(lia)). lia. }
  rewrite H4. reflexivity.
Qed.

Lemma three_bytes_wrapped e :
  0 < e < 2 ^ 20 ->
  let x := u32 (0 - e) in
  x mod 2 ^ 8 + 2 ^ 8 * ((x / 2 ^ 8) mod 2 ^ 8) + 2 ^ 16 * ((x / 2 ^ 16) mod 2 ^ 4)
  = 2 ^ 20 - e.
Proof.
  intros He x. subst x. unfold u32.
  change (2 ^ 20) with 1048576 in *. change (2 ^ 32) with 4294967296.
  change (2 ^ 16) with 65536. change (2 ^ 8) with 256. change (2 ^ 4) with 16.
  assert (Hx : (0 - e) mod 4294967296 = 4294967296 - e)
    by (Z.div_mod_to_equations; lia).
  rewrite Hx. Z.div_mod_to_equations. lia.
Qed.

(** X10. The probe leaves the current VTS of the session at 0.  Until a
    format or a vertical blanking has been set, setting an exposure [e] of
    the control's range on a powered device therefore writes a shutter value
    that has wrapped around: the three bytes written recombine to
    [2^20 - e], not to a VTS less [e]. *)
Theorem imx415_set_exposure_after_probe lanes e w :
  let s := imx415_probe_session lanes in
  0 < rpm_next w ->
  minimum (exposure s) <= e <= maximum (exposure s) ->
  cur_vts s = 0 /\
  exists w' ret b0 b1 b2,
    imx415_set_ctrl V4L2_CID_EXPOSURE e (s, w) = ((s, w'), ret) /\
    wire w' = wire w ++ [ Send [0x30; 0x50; b0]; Send [0x30; 0x51; b1];
                          Send [0x30; 0x52; b2] ] /\
    b0 + 2 ^ 8 * b1 + 2 ^ 16 * b2 = 2 ^ 20 - e.
Proof.
  intros s Hpm He. split; [reflexivity|].
  destruct (imx415_set_ctrl_regs_group V4L2_CID_EXPOSURE e s w eq_refl Hpm)
    as (s' & w' & ret & Hrun & Hs & Hw & _).
  subst s'. cbn [sub_writes] in Hw. rewrite expo_frames in Hw.
  change (cur_vts s) with 0 in Hw.
  eexists w', ret, _, _, _. repeat apply conj; [exact Hrun | exact Hw |].
  apply three_bytes_wrapped.
  change (minimum (exposure s)) with 8 in He.
  change (maximum (exposure s)) with 2296 in He.
  change (2 ^ 20) with 1048576. lia.
Qed.

Lemma imx415_set_exposure_after_probe_witness :
  let s := imx415_probe_session 4 in
  0 < rpm_next quiet /\
  minimum (exposure s) <= 2292 <= maximum (exposure s) /\
  exists w' ret,
    imx415_set_ctrl V4L2_CID_EXPOSURE 2292 (s, quiet) = ((s, w'), ret) /\
    wire w' = [ Send [0x30; 0x50; 0x0C]; Send [0x30; 0x51; 0xF7];
                Send [0x30; 0x52; 0x0F] ].
Proof.
  split; [reflexivity|]. split; [split; discriminate|].
  destruct (imx415_set_exposure_after_probe 4 2292 quiet)
    as (_ & w' & ret & b0 & b1 & b2 & Hrun & _).
  - reflexivity.
  - split; discriminate.
  - exists w', ret. split; [exact Hrun|].
    vm_compute in Hrun. injection Hrun as <- _. reflexivity.
Defined.

Lemma stays_powered_next w : stays_powered w -> 0 < rpm_next w.
Proof.
  unfold stays_powered, rpm_next. intros H.
  destruct (rpm_script w); [reflexivity|]. inversion H; subst. assumption.
Qed.

Lemma Forall_tl {A} (P : A -> Prop) l : Forall P l -> Forall P (tl l).
Proof. intros H. destruct l; [exact H|]. inversion H; subst. assumption. Qed.

Lemma imx415_set_ctrl_propagate_stays_powered id v s w :
  stays_powered w -> stays_powered (snd (imx415_set_ctrl_propagate id v (s, w))).
Proof.
  intros H. destruct id; try exact H.
  unfold imx415_set_ctrl_propagate, __v4l2_ctrl_modify_range. cbn [fst].
  destruct (negb (check_range _ _ _ _ =? 0)); [exact H|].
  unfold dev_exposure, dev_set_exposure. cbn [fst snd cur_val].
  match goal with |- context [if ?b then _ else _] => destruct b end; [exact H|].
  match goal with |- context [imx415_set_ctrl_regs ?i ?x (?a, ?b)] =>
    pose proof (proj1 (imx415_set_ctrl_regs_rpm i x a b)) as Hr;
    destruct (imx415_set_ctrl_regs i x (a, b)) as [[s2 w2] ret]
  end.
  cbn [fst snd] in Hr.
  assert (Hw2 : stays_powered w2)
    by (unfold stays_powered; rewrite Hr; apply Forall_tl; exact H).
  destruct (negb (ret =? 0)); exact Hw2.
Qed.

(** X11. On a device that stays powered, setting the vertical blanking [v]
    and then the exposure [e] writes the shutter value [v + height - e]: the
    exposure is taken relative to the VTS that the first call stored. *)
Theorem imx415_set_vblank_then_exposure v e s w :
  stays_powered w ->
  v + height (cur_mode s) < 2 ^ 32 -> 0 <= e ->
  0 <= v + height (cur_mode s) - e < 2 ^ 20 ->
  let x := v + height (cur_mode s) - e in
  exists s1 w1 r1 w2 r2,
    imx415_set_ctrl V4L2_CID_VBLANK v (s, w) = ((s1, w1), r1) /\
    imx415_set_ctrl V4L2_CID_EXPOSURE e (s1, w1) = ((s1, w2), r2) /\
    wire w2 = wire w1 ++ [ Send [0x30; 0x50; x mod 2 ^ 8];
                           Send [0x30; 0x51; (x / 2 ^ 8) mod 2 ^ 8];
                           Send [0x30; 0x52; (x / 2 ^ 16) mod 2 ^ 4] ] /\
    x mod 2 ^ 8 + 2 ^ 8 * ((x / 2 ^ 8) mod 2 ^ 8)
      + 2 ^ 16 * ((x / 2 ^ 16) mod 2 ^ 4) = x.
Proof.
  intros Hp Hmax He Hfit x.
  pose proof (imx415_set_ctrl_propagate_stays_powered V4L2_CID_VBLANK v s w Hp) as Hp1.
  destruct (imx415_set_ctrl_propagate_session V4L2_CID_VBLANK v s w) as [c Hc].
  destruct (imx415_set_ctrl V4L2_CID_VBLANK v (s, w)) as [[s1 w1] r1] eqn:Erun.
  unfold imx415_set_ctrl in Erun.
  destruct (imx415_set_ctrl_propagate V4L2_CID_VBLANK v (s, w)) as [s0 w0].
  cbn [fst snd] in *. subst s0.
  pose proof (imx415_set_ctrl_regs_session V4L2_CID_VBLANK v (set_exposure c s) w0) as Hs.
  pose proof (proj1 (imx415_set_ctrl_regs_rpm V4L2_CID_VBLANK v (set_exposure c s) w0)) as Hr.
  rewrite Erun in Hs, Hr. cbn [fst snd] in Hs, Hr.
  replace (0 <? rpm_next w0) with true in Hs
    by (symmetry; apply Z.ltb_lt, stays_powered_next; exact Hp1).
  assert (Hp2 : 0 < rpm_next w1).
  { apply stays_powered_next. unfold stays_powered. rewrite Hr.
    apply Forall_tl. exact Hp1. }
  assert (Hvts : cur_vts s1 = v + height (cur_mode s)).
  { rewrite Hs. cbn [cur_vts set_cur_vts set_exposure cur_mode].
    unfold u32. apply Z.mod_small.
    change (2 ^ 20) with 1048576 in Hfit. lia. }
  destruct (imx415_set_ctrl_regs_group V4L2_CID_EXPOSURE e s1 w1 eq_refl Hp2)
    as (s2 & w2 & r2 & Hrun2 & Hs2 & Hw2 & _).
  subst s2. cbn [sub_writes] in Hw2. rewrite expo_frames, Hvts in Hw2.
  assert (Hu : u32 (v + height (cur_mode s) - e) = x).
  { unfold u32, x. apply Z.mod_small.
    change (2 ^ 20) with 1048576 in Hfit. change (2 ^ 32) with 4294967296. lia. }
  rewrite Hu in Hw2.
  exists s1, w1, r1, w2, r2. repeat apply conj.
  - reflexivity.
  - exact Hrun2.
  - exact Hw2.
  - apply three_bytes. exact Hfit.
Qed.

Lemma imx415_set_vblank_then_exposure_witness :
  let s := imx415_probe_session 4 in
  stays_powered quiet /\
  200 + height (cur_mode s) < 2 ^ 32 /\ 0 <= 2000 /\
  0 <= 200 + height (cur_mode s) - 2000 < 2 ^ 20 /\
  exists s1 w1 r1 w2 r2,
    imx415_set_ctrl V4L2_CID_VBLANK 200 (s, quiet) = ((s1, w1), r1) /\
    imx415_set_ctrl V4L2_CID_EXPOSURE 2000 (s1, w1) = ((s1, w2), r2) /\
    wire w2 = wire w1 ++ [ Send [0x30; 0x50; 392 mod 2 ^ 8];
                           Send [0x30; 0x51; (392 / 2 ^ 8) mod 2 ^ 8];
                           Send [0x30; 0x52; (392 / 2 ^ 16) mod 2 ^ 4] ].
Proof.
  assert (Hp : stays_powered quiet) by constructor.
  split; [exact Hp|]. split; [reflexivity|]. split; [discriminate|].
  split; [split; [discriminate | reflexivity]|].
  destruct (imx415_set_vblank_then_exposure 200 2000 (imx415_probe_session 4) quiet Hp)
    as (s1 & w1 & r1 & w2 & r2 & H1 & H2 & Hw & _).
  - reflexivity.
  - discriminate.
  - split; [discriminate | reflexivity].
  - exists s1, w1, r1, w2, r2. repeat apply conj; assumption.
Defined.

(** ** What every reachable session satisfies *)

Lemma modify_range_preserves {S : Type} (P : S -> Prop)
    (get : S -> v4l2_ctrl) (put : v4l2_ctrl -> S -> S) (s_ctrl : Z -> S -> S * Z)
    min max stp def st :
  (forall c st0, P st0 -> P (put c st0)) ->
  (forall x st0, P st0 -> P (fst (s_ctrl x st0))) ->
  P st ->
  P (fst (__v4l2_ctrl_modify_range get put s_ctrl min max stp def st)).
Proof.
  intros Hput Hop Hst. unfold __v4l2_ctrl_modify_range.
  destruct (negb (check_range min max stp def =? 0)); [exact Hst|].
  match goal with |- context [if ?b then _ else _] => destruct b end.
  - cbn [fst]. apply Hput. exact Hst.
  - match goal with |- context [s_ctrl ?x ?y] =>
      pose proof (Hop x y (Hput _ _ Hst)) as H2; destruct (s_ctrl x y) as [st2 ret]
    end.
    cbn [fst] in H2. destruct (negb (ret =? 0)); cbn [fst]; [exact H2|].
    apply Hput. exact H2.
Qed.

(** The session after the control handler is the session before it with,
    at most, another exposure control and another current VTS. *)
Lemma imx415_set_ctrl_session_shape id v s w :
  exists c vts,
    fst (fst (imx415_set_ctrl id v (s, w))) = set_cur_vts vts (set_exposure c s) /\
    (vts = cur_vts s \/ vts = u32 (v + height (cur_mode s))) /\
    minimum c = minimum (exposure s) /\ step c = step (exposure s) /\
    default_value c = default_value (exposure s) /\
    (maximum c = maximum (exposure s) \/ default_value (exposure s) <= maximum c).
Proof.
  assert (Hsame : forall s0, set_cur_vts (cur_vts s0) (set_exposure (exposure s0) s0) = s0)
    by (intros s0; destruct s0; reflexivity).
  unfold imx415_set_ctrl.
  assert (Hprop : exists c,
             fst (imx415_set_ctrl_propagate id v (s, w)) = set_exposure c s /\
             minimum c = minimum (exposure s) /\ step c = step (exposure s) /\
             default_value c = default_value (exposure s) /\
             (maximum c = maximum (exposure s)
              \/ default_value (exposure s) <= maximum c)).
  { assert (Hid : exists c,
               s = set_exposure c s /\
               minimum c = minimum (exposure s) /\ step c = step (exposure s) /\
               default_value c = default_value (exposure s) /\
               (maximum c = maximum (exposure s)
                \/ default_value (exposure s) <= maximum c)).
    { exists (exposure s). repeat apply conj; auto. destruct s; reflexivity. }
    destruct id; try exact Hid.
    unfold imx415_set_ctrl_propagate, __v4l2_ctrl_modify_range. cbn [fst].
    destruct (check_range (minimum (exposure s)) (u32 (height (cur_mode s) + v - 4))
                (step (exposure s)) (default_value (exposure s)) =? 0) eqn:Echk;
      cbn [negb]; [|exact Hid].
    assert (Hdef : default_value (exposure s) <= u32 (height (cur_mode s) + v - 4)).
    { unfold check_range in Echk.
      destruct (Z.ltb_spec (u32 (height (cur_mode s) + v - 4))
                  (default_value (exposure s))) as [Hlt | Hge]; [|exact Hge].
      rewrite !orb_true_r in Echk. discriminate Echk. }
    unfold dev_exposure, dev_set_exposure. cbn [fst snd cur_val].
    match goal with |- context [if ?b then _ else _] => destruct b end.
    - eexists. split; [reflexivity|]. cbn. repeat apply conj; auto.
    - match goal with |- context [imx415_set_ctrl_regs ?i ?x (?a, ?b)] =>
        pose proof (imx415_set_ctrl_regs_session i x a b) as Hs;
        destruct (imx415_set_ctrl_regs i x (a, b)) as [[s2 w2] ret]
      end.
      cbn [fst] in Hs.
      assert (Hs2 : s2 = set_exposure
                (mkCtrl (minimum (exposure s)) (u32 (height (cur_mode s) + v - 4))
                        (step (exposure s)) (default_value (exposure s))
                        (cur_val (exposure s))) s)
        by (rewrite Hs; destruct (0 <? _); reflexivity).
      destruct (negb (ret =? 0)); cbn [fst snd]; rewrite Hs2;
        eexists; (split; [reflexivity|]); cbn; repeat apply conj; auto. }
  destruct Hprop as (c & Hc & Hmin & Hstep & Hdef & Hmax).
  destruct (imx415_set_ctrl_propagate id v (s, w)) as [s1 w1].
  cbn [fst] in Hc. subst s1.
  rewrite imx415_set_ctrl_regs_session.
  destruct (0 <? rpm_next w1); [destruct id|];
    try (exists c, (cur_vts s); split; [reflexivity|]; repeat apply conj; auto).
  exists c, (u32 (v + height (cur_mode s))).
  split; [reflexivity|]. repeat apply conj; auto.
Qed.

Lemma imx415_set_ctrl_inv id v s w :
  session_inv s -> session_inv (fst (fst (imx415_set_ctrl id v (s, w)))).
Proof.
  intros (Hcfg & Hmode & Hvts & Hmin & Hstep & Hdef & Hmax).
  destruct (imx415_set_ctrl_session_shape id v s w)
    as (c & vts & Hs & Hv & Hcmin & Hcstep & Hcdef & Hcmax).
  rewrite Hs. unfold session_inv.
  cbn [cfg_num cur_mode cur_vts exposure set_cur_vts set_exposure].
  assert (Hv' : 0 <= vts < 2 ^ 32).
  { destruct Hv as [-> | ->]; [exact Hvts|]. unfold u32.
    apply Z.mod_pos_bound. lia. }
  assert (Hm' : exp_def mode_3864x2192 <= maximum c).
  { destruct Hcmax as [Hc | Hc]; [rewrite Hc; exact Hmax | rewrite <- Hdef; exact Hc]. }
  repeat apply conj; try congruence; try tauto.
Qed.

Lemma imx415_find_best_fit_single s f :
  0 <= cfg_num s <= 1 -> imx415_find_best_fit s f = Done mode_3864x2192.
Proof.
  intros Hcfg. assert (Hc : cfg_num s = 0 \/ cfg_num s = 1) by lia.
  unfold imx415_find_best_fit, find_best_fit_in, supported_modes.
  destruct Hc as [-> | ->]; cbn [find_best_fit_from Z.ltb Z.compare Z.add Pos.compare].
  - reflexivity.
  - destruct (((-1 =? -1) || (imx415_get_reso_dist mode_3864x2192 f <=? -1))
              && (bus_fmt mode_3864x2192 =? f_code f)); reflexivity.
Qed.

Lemma imx415_set_fmt_inv api which f s w st' f' r :
  session_inv s ->
  imx415_set_fmt api which f (s, w) = Done (st', f', r) ->
  session_inv (fst st').
Proof.
  intros Hinv H. pose proof Hinv as (Hcfg & Hmode & Hvts & Hrest).
  unfold imx415_set_fmt in H. cbn [fst snd] in H.
  rewrite imx415_find_best_fit_single in H by lia.
  destruct which.
  - destruct api; injection H as <- _ _; exact Hinv.
  - match type of H with Done (?a, _, _) = _ => remember a as st3 eqn:Est3 end.
    injection H as <- _ _. subst st3.
    set (P := fun st : dev => session_inv (fst st)).
    assert (Hput_h : forall c st0, P st0 -> P (dev_set_hblank c st0))
      by (intros c [s0 w0] H0; exact H0).
    assert (Hput_v : forall c st0, P st0 -> P (dev_set_vblank c st0))
      by (intros c [s0 w0] H0; exact H0).
    assert (Hop : forall id x st0, P st0 -> P (fst (imx415_set_ctrl id x st0)))
      by (intros id x [s0 w0] H0; apply imx415_set_ctrl_inv; exact H0).
    apply (modify_range_preserves P); [exact Hput_v | apply Hop |].
    apply (modify_range_preserves P); [exact Hput_h | apply Hop |].
    unfold P, session_inv. cbn. repeat apply conj; try tauto; try reflexivity.
    + discriminate.
Qed.

Lemma imx415_s_stream_session on s w s' w' r :
  imx415_s_stream on (s, w) = Done ((s', w'), r) ->
  s' = s \/ s' = set_streaming (negb (on =? 0)) s.
Proof.
  unfold imx415_s_stream. intros H.
  destruct (Bool.eqb (negb (on =? 0)) (streaming s)).
  - injection H as <- _ _. left. reflexivity.
  - destruct (negb (on =? 0)).
    + destruct (pm_runtime_get_sync w) as [w1 ret].
      destruct (ret <? 0); [injection H as <- _ _; left; reflexivity|].
      destruct (__imx415_start_stream s w1) as [[w2 r2]|]; [|discriminate].
      destruct (negb (r2 =? 0)); injection H as <- _ _; [left | right]; reflexivity.
    + destruct (__imx415_stop_stream s w) as [w1 r1].
      injection H as <- _ _. right. reflexivity.
Qed.

Lemma reachable_session_inv st : reachable st -> session_inv (fst st).
Proof.
  induction 1 as [lanes w | id v [s w] Hr IH | api which f [s w] st' f' r Hr IH Hrun
                  | on [s w] [s' w'] r Hr IH Hrun | s w w' Hr IH | s w a b c Hr IH].
  - unfold session_inv. cbn. repeat apply conj; try reflexivity; discriminate.
  - apply imx415_set_ctrl_inv. exact IH.
  - exact (imx415_set_fmt_inv _ _ _ _ _ _ _ _ IH Hrun).
  - cbn [fst] in *.
    destruct (imx415_s_stream_session _ _ _ _ _ _ Hrun) as [-> | ->]; exact IH.
  - exact IH.
  - exact IH.
Qed.

(** X12. In every state the driver can reach, the number of modes it looks
    at is 0 (no function assigns it), the current mode is the one entry of
    the catalogue, the current VTS is a 32-bit value, and the exposure
    control has minimum 8, step 1 and default 2292 with a maximum that is
    never below that default, whatever vertical blanking has been set. *)
Theorem reachable_invariants s w :
  reachable (s, w) ->
  cfg_num s = 0 /\ cur_mode s = mode_3864x2192 /\
  0 <= cur_vts s < 2 ^ 32 /\
  minimum (exposure s) = 8 /\ step (exposure s) = 1 /\
  default_value (exposure s) = 2292 /\ 2292 <= maximum (exposure s).
Proof.
  intros Hr. apply reachable_session_inv in Hr.
  destruct Hr as (Hcfg & Hmode & Hvts & Hmin & Hstep & Hdef & Hmax).
  cbn [fst] in *.
  repeat apply conj; try assumption; try tauto.
Qed.

Lemma reachable_invariants_witness :
  exists s w,
    reachable (s, w) /\ cur_vts s = 2238 /\
    cfg_num s = 0 /\ cur_mode s = mode_3864x2192 /\
    0 <= cur_vts s < 2 ^ 32 /\
    minimum (exposure s) = 8 /\ step (exposure s) = 1 /\
    default_value (exposure s) = 2292 /\ 2292 <= maximum (exposure s).
Proof.
  pose (st0 := (imx415_probe_session 4, quiet)).
  pose (st1 := (imx415_change_mode mode_3864x2192 (imx415_probe_session 4), quiet)).
  assert (Hfmt : exists st f r,
             imx415_set_fmt true V4L2_SUBDEV_FORMAT_ACTIVE default_fmt st0
             = Done (st, f, r)).
  { eexists _, _, _. vm_compute. reflexivity. }
  destruct Hfmt as (st & f & r & Hfmt).
  assert (Hr : reachable (fst (imx415_set_ctrl V4L2_CID_VBLANK 46 st))).
  { apply reach_set_ctrl. eapply reach_set_fmt; [apply (reach_probe 4 quiet)|].
    exact Hfmt. }
  vm_compute in Hfmt. injection Hfmt as <- _ _.
  destruct (fst (imx415_set_ctrl V4L2_CID_VBLANK 46 _)) as [s w] eqn:E.
  exists s, w. split; [exact Hr|].
  split; [vm_compute in E; injection E as <- _; reflexivity|].
  exact (reachable_invariants s w Hr).
Defined.

(** X13. In every state the driver can reach, the enumeration of frame sizes
    and that of frame intervals return the invalid-argument error for every
    index and every format code, leaving the caller's structure as it was:
    the driver advertises no size at all. *)
Theorem imx415_enum_nothing s w :
  reachable (s, w) ->
  (forall fse, 0 <= fse_index fse ->
     imx415_enum_frame_sizes fse s = Done (fse, - EINVAL)) /\
  (forall fie, 0 <= fie_index fie ->
     imx415_enum_frame_interval fie s = Done (fie, - EINVAL)).
Proof.
  intros Hr. apply reachable_session_inv in Hr. destruct Hr as (Hcfg & _).
  cbn [fst] in Hcfg. split.
  - intros fse Hi. unfold imx415_enum_frame_sizes. rewrite Hcfg.
    replace (0 <=? fse_index fse) with true by (symmetry; apply Z.leb_le; exact Hi).
    reflexivity.
  - intros fie Hi. unfold imx415_enum_frame_interval. rewrite Hcfg.
    replace (0 <=? fie_index fie) with true by (symmetry; apply Z.leb_le; exact Hi).
    reflexivity.
Qed.

Lemma imx415_enum_nothing_witness :
  let fse := mkFse 0 MEDIA_BUS_FMT_SGBRG10_1X10 0 0 0 0 in
  reachable (imx415_probe_session 4, quiet) /\ 0 <= fse_index fse /\
  imx415_enum_frame_sizes fse (imx415_probe_session 4) = Done (fse, - EINVAL).
Proof.
  split; [apply reach_probe|]. split; [discriminate|].
  apply (proj1 (imx415_enum_nothing (imx415_probe_session 4) quiet
                  (reach_probe 4 quiet))).
  discriminate.
Defined.

(** ** Format selection *)

Lemma modify_range_in_range {S : Type}
    (get : S -> v4l2_ctrl) (put : v4l2_ctrl -> S -> S) (s_ctrl : Z -> S -> S * Z)
    min max stp def st :
  check_range min max stp def = 0 ->
  ROUND_TO_RANGE (cur_val (get st)) (mkCtrl min max stp def (cur_val (get st)))
  = cur_val (get st) ->
  __v4l2_ctrl_modify_range get put s_ctrl min max stp def st
  = (put (mkCtrl min max stp def (cur_val (get st))) st, 0).
Proof.
  intros Hchk Hround. unfold __v4l2_ctrl_modify_range.
  rewrite Hchk. cbn [negb Z.eqb cur_val]. rewrite Hround, Z.eqb_refl. reflexivity.
Qed.

(** X14. On a session that looks at no more than the one mode of the
    catalogue, a format request is answered with 3864x2192 in the 10-bit
    format whatever was asked for.  A try request changes nothing.  An
    active request, the blanking controls holding values of the ranges that
    it installs, selects that mode, resets the current VTS to the default
    2300 of the mode, fixes the horizontal blanking at 536 and gives the
    vertical blanking the range 46 to 30575 with default 108, keeping its
    value; the exposure control is not touched, nothing is put on the bus
    and the result is 0. *)
Theorem imx415_set_fmt_effect api f s w :
  0 <= cfg_num s <= 1 ->
  imx415_set_fmt api V4L2_SUBDEV_FORMAT_TRY f (s, w)
  = Done ((s, w), default_fmt, if api then 0 else - ENOTTY) /\
  (cur_val (hblank s) = 536 -> 46 <= cur_val (vblank s) <= 30575 ->
   imx415_set_fmt api V4L2_SUBDEV_FORMAT_ACTIVE f (s, w)
   = Done ((mkImx415 (nlanes s) mode_3864x2192 (streaming s) (power_on s)
                     (cfg_num s) 2300
                     (mkCtrl 536 536 1 536 536)
                     (mkCtrl 46 30575 1 108 (cur_val (vblank s)))
                     (exposure s), w),
           default_fmt, 0)).
Proof.
  intros Hcfg. unfold imx415_set_fmt. cbn [fst snd].
  rewrite imx415_find_best_fit_single by exact Hcfg. split.
  - destruct api; reflexivity.
  - intros Hh Hv.
    change (u32 (hts_def mode_3864x2192 - width mode_3864x2192)) with 536.
    change (u32 (vts_def mode_3864x2192 - height mode_3864x2192)) with 108.
    change (u32 (u32 (height mode_3864x2192 + 46) - height mode_3864x2192)) with 46.
    change (u32 (IMX415_VTS_MAX - height mode_3864x2192)) with 30575.
    rewrite (modify_range_in_range dev_hblank dev_set_hblank).
    + cbn [fst].
      rewrite (modify_range_in_range dev_vblank dev_set_vblank).
      * cbn [fst]. unfold dev_set_vblank, dev_set_hblank, dev_vblank, dev_hblank,
          imx415_change_mode. cbn. rewrite Hh. reflexivity.
      * reflexivity.
      * rewrite ROUND_TO_RANGE_step_1 by (cbn; lia).
        unfold dev_vblank, dev_set_hblank, imx415_change_mode, clamp. cbn. lia.
    + reflexivity.
    + rewrite ROUND_TO_RANGE_step_1 by (cbn; lia).
      unfold dev_hblank, imx415_change_mode, clamp. cbn. lia.
Qed.

Lemma imx415_set_fmt_effect_witness :
  let s := imx415_probe_session 4 in
  0 <= cfg_num s <= 1 /\ cur_val (hblank s) = 536 /\
  46 <= cur_val (vblank s) <= 30575 /\
  imx415_set_fmt true V4L2_SUBDEV_FORMAT_ACTIVE (mkFmt 640 480 0x300f) (s, quiet)
  = Done ((mkImx415 (nlanes s) mode_3864x2192 (streaming s) (power_on s)
                    (cfg_num s) 2300
                    (mkCtrl 536 536 1 536 536)
                    (mkCtrl 46 30575 1 108 (cur_val (vblank s)))
                    (exposure s), quiet),
          default_fmt, 0).
Proof.
  split; [split; discriminate|]. split; [reflexivity|].
  split; [split; discriminate|].
  apply (proj2 (imx415_set_fmt_effect true (mkFmt 640 480 0x300f)
                  (imx415_probe_session 4) quiet ltac:(split; discriminate))).
  - reflexivity.
  - split; discriminate.
Defined.

(** X15. The format that an active format request hands back is the one a
    format query returns afterwards, and the request itself returns 0. *)
Theorem imx415_get_fmt_after_set_fmt api api' f st st' f' r try_fmt old :
  imx415_set_fmt api V4L2_SUBDEV_FORMAT_ACTIVE f st = Done (st', f', r) ->
  imx415_get_fmt api' V4L2_SUBDEV_FORMAT_ACTIVE try_fmt old (fst st') = (f', 0)
  /\ r = 0.
Proof.
  unfold imx415_set_fmt. intros H.
  destruct (imx415_find_best_fit (fst st) f) as [mode|]; [|discriminate].
  match type of H with Done (?a, _, _) = _ => remember a as st3 eqn:Est3 end.
  injection H as <- <- <-. split; [|reflexivity].
  set (P := fun st0 : dev => cur_mode (fst st0) = mode).
  assert (Hput_h : forall c st0, P st0 -> P (dev_set_hblank c st0))
    by (intros c [s0 w0] H0; exact H0).
  assert (Hput_v : forall c st0, P st0 -> P (dev_set_vblank c st0))
    by (intros c [s0 w0] H0; exact H0).
  assert (Hop : forall id x st0, P st0 -> P (fst (imx415_set_ctrl id x st0))).
  { intros id x [s0 w0] H0. unfold P in *.
    destruct (imx415_set_ctrl_session_shape id x s0 w0) as (c & vts & Hs & _).
    rewrite Hs. exact H0. }
  assert (Hmode : P st3).
  { rewrite Est3.
    apply (modify_range_preserves P); [exact Hput_v | apply Hop |].
    apply (modify_range_preserves P); [exact Hput_h | apply Hop |].
    reflexivity. }
  unfold imx415_get_fmt. unfold P in Hmode. rewrite Hmode. reflexivity.
Qed.

Lemma imx415_get_fmt_after_set_fmt_witness :
  exists st' f',
    imx415_set_fmt true V4L2_SUBDEV_FORMAT_ACTIVE (mkFmt 640 480 0x300f)
      (imx415_probe_session 4, quiet) = Done (st', f', 0) /\
    imx415_get_fmt true V4L2_SUBDEV_FORMAT_ACTIVE default_fmt default_fmt (fst st')
    = (f', 0).
Proof.
  eexists _, _. split; [vm_compute; reflexivity|].
  eapply (proj1 (imx415_get_fmt_after_set_fmt true true (mkFmt 640 480 0x300f)
                   (imx415_probe_session 4, quiet) _ _ 0 default_fmt default_fmt _)).
  Unshelve. vm_compute. reflexivity.
Defined.

(** ** Selecting the selected mode again *)

Lemma manhattan_zero m g :
  manhattan m g = 0 -> width m = f_width g /\ height m = f_height g.
Proof. unfold manhattan. lia. Qed.

Lemma manhattan_same_size m m' f :
  width m' = width m -> height m' = height m -> manhattan m' f = manhattan m f.
Proof. unfold manhattan. intros -> ->. reflexivity. Qed.

(** X16. Selection is idempotent on a match: when a request is answered
    with a mode of the requested format, requesting the size and format of
    that mode is answered with the same mode (dimensions below 2^30, the
    number of modes looked at no more than the catalogue holds). *)
Theorem find_best_fit_in_idempotent catalog s f (n : nat) m :
  Forall small_mode catalog ->
  small (f_width f) /\ small (f_height f) ->
  cfg_num s = Z.of_nat n -> (n <= length catalog)%nat ->
  find_best_fit_in catalog s f = Done m -> bus_fmt m = f_code f ->
  find_best_fit_in catalog s (mkFmt (width m) (height m) (bus_fmt m)) = Done m.
Proof.
  intros Hsmall Hf Hcfg Hn Hrun Hfmt.
  set (g := mkFmt (width m) (height m) (bus_fmt m)).
  assert (Hinit : forall h, fit h [] 0 (-1)).
  { intros h. left. repeat apply conj; try reflexivity.
    intros j mj Hj. destruct j; discriminate Hj. }
  destruct (find_best_fit_from_fit f Hf n catalog [] 0 (-1) Hsmall
              ltac:(simpl; lia) (Hinit f)) as (k1 & bd1 & Hrun1 & Hfit1).
  cbn [length app] in Hrun1, Hfit1. change (Z.of_nat 0) with 0 in Hrun1.
  unfold find_best_fit_in in Hrun. rewrite Hcfg, Hrun1 in Hrun.
  destruct (nth_error catalog (Z.to_nat k1)) as [m1|] eqn:Ek1; [|discriminate].
  injection Hrun as ->.
  assert (Hg : small (f_width g) /\ small (f_height g)).
  { apply nth_error_In in Ek1. rewrite Forall_forall in Hsmall.
    exact (Hsmall m Ek1). }
  destruct (find_best_fit_from_fit g Hg n catalog [] 0 (-1) Hsmall
              ltac:(simpl; lia) (Hinit g)) as (k2 & bd2 & Hrun2 & Hfit2).
  cbn [length app] in Hrun2, Hfit2. change (Z.of_nat 0) with 0 in Hrun2.
  unfold find_best_fit_in. rewrite Hcfg, Hrun2.
  assert (Hgm : manhattan m g = 0) by (unfold manhattan, g; cbn; lia).
  destruct Hfit1 as [(_ & -> & Hnone1) | (kb1 & mb1 & -> & Hkb1 & Hfmt1 & -> & Hall1)].
  - (* nothing matched: entry 0 was returned, so no entry was looked at *)
    destruct Hfit2 as [(_ & -> & _) | (kb2 & mb2 & _ & Hkb2 & _)].
    + rewrite Ek1. reflexivity.
    + exfalso. apply nth_error_firstn_Some in Hkb2. destruct Hkb2 as [Hlt _].
      destruct n as [|n']; [lia|].
      apply (Hnone1 0%nat m); [|exact Hfmt].
      apply nth_error_firstn_Some. split; [lia | exact Ek1].
  - rewrite Nat2Z.id in Ek1.
    pose proof Hkb1 as Hin1. apply nth_error_firstn_Some in Hin1.
    destruct Hin1 as [Hlt1 Hcat1]. rewrite Ek1 in Hcat1. injection Hcat1 as <-.
    destruct Hfit2 as [(_ & _ & Hnone2) | (kb2 & mb2 & -> & Hkb2 & Hfmt2 & -> & Hall2)].
    + exfalso. exact (Hnone2 kb1 m Hkb1 eq_refl).
    + rewrite Nat2Z.id.
      destruct (Hall2 kb1 m Hkb1 eq_refl) as [Hle2 Htie2].
      pose proof (manhattan_nonneg g mb2) as Hnn.
      assert (Hz : manhattan mb2 g = 0) by lia.
      destruct (manhattan_zero _ _ Hz) as [Hw Hh]. cbn in Hw, Hh, Hfmt2.
      assert (Hsame : manhattan mb2 f = manhattan m f)
        by (apply manhattan_same_size; assumption).
      assert (Hfmt2' : bus_fmt mb2 = f_code f) by congruence.
      destruct (Hall1 kb2 mb2 Hkb2 Hfmt2') as [_ Htie1].
      assert (Hk : kb2 = kb1) by (specialize (Htie1 Hsame); specialize (Htie2 ltac:(lia)); lia).
      subst kb2. apply nth_error_firstn_Some in Hkb2. destruct Hkb2 as [_ Hkb2].
      rewrite Hkb2. rewrite Ek1 in Hkb2. injection Hkb2 as ->. reflexivity.
Qed.

Lemma find_best_fit_in_idempotent_witness :
  let s := looks_at 2 (imx415_probe_session 4) in
  let f := mkFmt 1920 1080 MEDIA_BUS_FMT_SGBRG10_1X10 in
  Forall small_mode two_modes /\
  (small (f_width f) /\ small (f_height f)) /\
  cfg_num s = Z.of_nat 2 /\ (2 <= length two_modes)%nat /\
  find_best_fit_in two_modes s f = Done second_timing /\
  bus_fmt second_timing = f_code f /\
  find_best_fit_in two_modes s
    (mkFmt (width second_timing) (height second_timing) (bus_fmt second_timing))
  = Done second_timing.
Proof.
  assert (Hsm : Forall small_mode two_modes).
  { repeat constructor; vm_compute; intuition discriminate. }
  assert (Hf : small 1920 /\ small 1080).
  { split; vm_compute; intuition discriminate. }
  assert (Hlen : (2 <= length two_modes)%nat) by (simpl; lia).
  assert (Hrun : find_best_fit_in two_modes (looks_at 2 (imx415_probe_session 4))
                   (mkFmt 1920 1080 MEDIA_BUS_FMT_SGBRG10_1X10) = Done second_timing)
    by (vm_compute; reflexivity).
  repeat (split; [assumption || reflexivity|]).
  exact (find_best_fit_in_idempotent two_modes
           (looks_at 2 (imx415_probe_session 4))
           (mkFmt 1920 1080 MEDIA_BUS_FMT_SGBRG10_1X10) 2 second_timing
           Hsm Hf eq_refl Hlen Hrun eq_refl).
Defined.

(** ** Lane configuration and identification *)

(** X17. The lane configuration refuses a lane count other than 2 or 4 with
    the invalid-argument error and nothing on the bus.  Otherwise it writes
    0x01 (2 lanes) or 0x03 (4 lanes) to the lane-mode register; when that
    write is refused it returns the I/O error without reading back; when it
    is acknowledged it reads the register back and returns the result of
    that read alone: 0 whatever value comes back, the I/O error when the
    read is refused. *)
Theorem imx415_set_data_lanes_cases s w :
  (nlanes s <> 2 -> nlanes s <> 4 -> imx415_set_data_lanes s w = (w, - EINVAL)) /\
  (nlanes s = 2 \/ nlanes s = 4 ->
   let wr := Send [0x40; 0x01; lane_value (nlanes s)] in
   match reply_at w 0 with
   | Nack => imx415_set_data_lanes s w = (transact wr w, - EIO)
   | Ack _ =>
       imx415_set_data_lanes s w
       = (transact (ReadAt [0x40; 0x01] 1) (transact wr w), write_code (reply_at w 1))
   end).
Proof.
  unfold imx415_set_data_lanes. split.
  - intros H2 H4.
    replace (nlanes s =? 2) with false by (symmetry; apply Z.eqb_neq; exact H2).
    replace (nlanes s =? 4) with false by (symmetry; apply Z.eqb_neq; exact H4).
    reflexivity.
  - intros Hl. unfold lane_value.
    destruct Hl as [-> | ->]; cbn [Z.eqb Pos.eqb];
      rewrite imx415_write_reg_08bit, imx415_read_reg_08bit; bus_norm;
      destruct (reply_at w 0); cbn [write_code negb Z.eqb Z.opp EIO];
      bus_norm; reflexivity.
Qed.

Lemma imx415_set_data_lanes_cases_witness :
  let s := imx415_probe_session 4 in
  let w := mkWorld [] [Ack 0; Ack 0x01] [] 0 in
  (nlanes s = 2 \/ nlanes s = 4) /\
  imx415_set_data_lanes s w
  = (transact (ReadAt [0x40; 0x01] 1) (transact (Send [0x40; 0x01; 0x03]) w), 0).
Proof.
  split; [right; reflexivity|].
  exact (proj2 (imx415_set_data_lanes_cases (imx415_probe_session 4)
                  (mkWorld [] [Ack 0; Ack 0x01] [] 0)) (or_intror eq_refl)).
Defined.

(** X18. The identification is one read of the chip-identity register; it
    returns 0 exactly when that read is acknowledged with the byte 0xE0, and
    the I/O error in every other case. *)
Theorem imx415_identify_module_cases s w :
  exists ret,
    imx415_identify_module s w = (transact (ReadAt [0x31; 0x1A] 1) w, ret) /\
    (ret = 0 \/ ret = - EIO) /\
    (ret = 0 <-> exists data, reply_at w 0 = Ack data /\ data mod 2 ^ 8 = 0xE0).
Proof.
  unfold imx415_identify_module. rewrite imx415_read_reg_08bit, next_reply_at.
  destruct (reply_at w 0) as [data|]; cbn [write_code negb Z.eqb Z.opp EIO].
  - unfold IMX415_CHIP_ID.
    destruct (Z.eqb_spec (data mod 2 ^ 8) 0xE0) as [He | Hne]; cbn [negb].
    + eexists. split; [reflexivity|]. split; [left; reflexivity|].
      split; [intros _; exists data; split; [reflexivity | exact He] | reflexivity].
    + eexists. split; [reflexivity|]. split; [right; reflexivity|].
      split; [discriminate|].
      intros (d & Hd & He). injection Hd as ->. contradiction.
  - eexists. split; [reflexivity|]. split; [right; reflexivity|].
    split; [discriminate|]. intros (d & Hd & _). discriminate Hd.
Qed.

(** ** Power *)

(** X19. Power-on passes on the error of the clock without having changed
    anything, and the error of the supplies with the clock released again
    and nothing on the bus.  Once clock and supplies are on it asserts the
    reset line, has slept 30001 microseconds at least, and returns whatever
    the lane configuration returns; when that is an error nothing is undone:
    clock and supplies stay enabled and the reset line stays asserted. *)
Theorem imx415_power_on_cases s b :
  (clk_ret b <> 0 -> imx415_power_on s b = (b, clk_ret b)) /\
  (clk_ret b = 0 -> supplies_ret b <> 0 ->
   exists b',
     imx415_power_on s b = (b', supplies_ret b) /\
     clk_on b' = clk_on b /\ supplies_on b' = supplies_on b /\
     rst_line b' = rst_line b /\ io b' = io b /\ slept_us b' = slept_us b) /\
  (clk_ret b = 0 -> supplies_ret b = 0 ->
   exists b',
     imx415_power_on s b = (b', snd (imx415_set_data_lanes s (io b))) /\
     io b' = fst (imx415_set_data_lanes s (io b)) /\
     clk_on b' = clk_on b + 1 /\ supplies_on b' = supplies_on b + 1 /\
     rst_line b' = 1 /\ slept_us b' = slept_us b + 30001).
Proof.
  unfold imx415_power_on. repeat apply conj.
  - intros Hc.
    replace (clk_ret b =? 0) with false by (symmetry; apply Z.eqb_neq; exact Hc).
    reflexivity.
  - intros Hc Hs. rewrite Hc.
    replace (supplies_ret b =? 0) with false by (symmetry; apply Z.eqb_neq; exact Hs).
    cbn [negb Z.eqb]. eexists. split; [reflexivity|].
    cbn. repeat apply conj; try reflexivity; lia.
  - intros Hc Hs. rewrite Hc, Hs. cbn [negb Z.eqb].
    destruct (imx415_set_data_lanes s (io b)) as [w ret].
    eexists. split; [reflexivity|]. cbn. repeat apply conj; try reflexivity; lia.
Qed.

Lemma imx415_power_on_cases_witness :
  let s := imx415_probe_session 3 in
  let b := mkBoard quiet 0 0 0 0 0 0 in
  clk_ret b = 0 /\ supplies_ret b = 0 /\
  exists b',
    imx415_power_on s b = (b', - EINVAL) /\
    clk_on b' = 1 /\ supplies_on b' = 1 /\ rst_line b' = 1.
Proof.
  split; [reflexivity|]. split; [reflexivity|].
  destruct (proj2 (proj2 (imx415_power_on_cases (imx415_probe_session 3)
                            (mkBoard quiet 0 0 0 0 0 0))) eq_refl eq_refl)
    as (b' & Hrun & _ & Hc & Hs & Hr & _).
  exists b'. repeat apply conj; assumption.
Defined.

(** X20. A power-on that found clock and supplies willing, followed by a
    power-off, leaves the clock and the supplies enabled as often as before
    and the reset line released; the only bus traffic in between is that of
    the lane configuration, and the power-off returns 0. *)
Theorem imx415_power_on_off s b :
  clk_ret b = 0 -> supplies_ret b = 0 ->
  let b1 := fst (imx415_power_on s b) in
  let b2 := fst (imx415_power_off s b1) in
  snd (imx415_power_off s b1) = 0 /\
  clk_on b2 = clk_on b /\ supplies_on b2 = supplies_on b /\ rst_line b2 = 0 /\
  io b2 = fst (imx415_set_data_lanes s (io b)).
Proof.
  intros Hc Hs b1 b2. subst b2 b1. unfold imx415_power_on, imx415_power_off.
  rewrite Hc, Hs. cbn [negb Z.eqb].
  destruct (imx415_set_data_lanes s (io b)) as [w ret].
  cbn. repeat apply conj; try reflexivity; lia.
Qed.

Lemma imx415_power_on_off_witness :
  let s := imx415_probe_session 4 in
  let b := mkBoard quiet 0 0 0 0 0 0 in
  clk_ret b = 0 /\ supplies_ret b = 0 /\
  clk_on (fst (imx415_power_off s (fst (imx415_power_on s b)))) = clk_on b.
Proof.
  split; [reflexivity|]. split; [reflexivity|].
  exact (proj1 (proj2 (imx415_power_on_off (imx415_probe_session 4)
                         (mkBoard quiet 0 0 0 0 0 0) eq_refl eq_refl))).
Defined.

(** ** Probe and remove *)

Ltac probe_walk H :=
  repeat match type of H with
    | context [if ?b then _ else _] => destruct b eqn:?; try discriminate H
    | context [let '(_, _) := ?x in _] => destruct x as [? ?] eqn:?
    end.

Lemma two_values x a b :
  negb (x =? a) && negb (x =? b) = false -> x = a \/ x = b.
Proof.
  intros H. apply andb_false_iff in H.
  destruct H as [H | H]; apply negb_false_iff, Z.eqb_eq in H; auto.
Qed.

Lemma imx415_set_data_lanes_world s w :
  nlanes s = 2 \/ nlanes s = 4 ->
  snd (imx415_set_data_lanes s w) = 0 ->
  fst (imx415_set_data_lanes s w)
  = transact (ReadAt [0x40; 0x01] 1)
      (transact (Send [0x40; 0x01; lane_value (nlanes s)]) w).
Proof.
  unfold imx415_set_data_lanes, lane_value. intros Hl.
  destruct Hl as [-> | ->]; cbn [Z.eqb Pos.eqb];
    rewrite imx415_write_reg_08bit, imx415_read_reg_08bit;
    destruct (next_reply w); cbn [write_code negb Z.eqb Z.opp EIO fst snd];
    intros H; try reflexivity; discriminate H.
Qed.

Lemma imx415_identify_module_world s w :
  fst (imx415_identify_module s w) = transact (ReadAt [0x31; 0x1A] 1) w.
Proof.
  unfold imx415_identify_module. rewrite imx415_read_reg_08bit.
  destruct (next_reply w) as [data|]; cbn [write_code negb Z.eqb Z.opp EIO].
  - destruct (negb (data mod 2 ^ 8 =? IMX415_CHIP_ID)); reflexivity.
  - reflexivity.
Qed.

Lemma imx415_set_data_lanes_nonpos s w : snd (imx415_set_data_lanes s w) <= 0.
Proof.
  unfold imx415_set_data_lanes.
  destruct (if nlanes s =? 2 then Some 1 else if nlanes s =? 4 then Some 3 else None);
    [|cbn; unfold EINVAL; lia].
  rewrite imx415_write_reg_08bit.
  destruct (next_reply w); cbn [write_code negb Z.eqb Z.opp EIO].
  - rewrite imx415_read_reg_08bit. cbn [snd].
    destruct (next_reply _); cbn; lia.
  - cbn. lia.
Qed.

(** What a probe that hands back a session has gone through. *)
Lemma imx415_probe_some e p p' ret s :
  clk_ret (brd p) <= 0 -> supplies_ret (brd p) <= 0 ->
  imx415_probe e p = (p', ret, Some s) ->
  ret = 0 /\ config_ok e /\ ctrls_error e = 0 /\
  s = imx415_probe_session (num_data_lanes e) /\
  snd (imx415_set_data_lanes s (io (brd p))) = 0 /\
  snd (imx415_identify_module s (fst (imx415_set_data_lanes s (io (brd p))))) = 0 /\
  io (brd p')
  = fst (imx415_identify_module s (fst (imx415_set_data_lanes s (io (brd p))))) /\
  clk_on (brd p') = clk_on (brd p) + 1 /\
  supplies_on (brd p') = supplies_on (brd p) + 1 /\
  rst_line (brd p') = 1 /\ slept_us (brd p') = slept_us (brd p) + 30001 /\
  handlers p' = handlers p + 1 /\ mutexes p' = mutexes p + 1 /\
  entities p' = entities p + 1 /\ endpoint_frees p' = endpoint_frees p + 1 /\
  registered p' = true /\ rpm_enabled p' = true.
Proof.
  intros Hc Hs H. unfold imx415_probe in H. probe_walk H.
  cbn [brd] in *.
  repeat match goal with
    | Hb : negb _ = false |- _ => apply negb_false_iff in Hb
    end.
  repeat match goal with
    | Hb : (_ =? _) = true |- _ => apply Z.eqb_eq in Hb
    | Hb : (_ =? _) = false |- _ => apply Z.eqb_neq in Hb
    | Hb : (_ <? _) = false |- _ => apply Z.ltb_ge in Hb
    | Hb : _ && _ = false |- _ => apply two_values in Hb
    end.
  match goal with
  | Hp : imx415_power_on _ _ = _ |- _ => unfold imx415_power_on in Hp; probe_walk Hp
  end.
  all: repeat match goal with
    | Hb : negb _ = true |- _ => apply negb_true_iff in Hb
    | Hb : negb _ = false |- _ => apply negb_false_iff in Hb
    end.
  all: repeat match goal with
    | Hb : (_ =? _) = true |- _ => apply Z.eqb_eq in Hb
    | Hb : (_ =? _) = false |- _ => apply Z.eqb_neq in Hb
    end.
  all: match goal with
    | Hp : (_, _) = (?b0, ?r0) |- _ => is_var b0; is_var r0; injection Hp as <- <-
    end.
  all: try lia.
  cbn in H. injection H as <- <- <-.
  match goal with
  | Hl : imx415_set_data_lanes ?s0 ?w0 = (_, ?r), Hi : imx415_identify_module _ _ = _
    |- _ =>
      pose proof (imx415_set_data_lanes_nonpos s0 w0) as Hle;
      rewrite Hl in Hle; cbn [snd] in Hle;
      assert (Hz : r = 0) by lia; subst r;
      rewrite Hl; cbn [fst snd]; cbn [io] in Hi; rewrite Hi
  end.
  subst. cbn. unfold config_ok.
  repeat apply conj; try reflexivity; try assumption; try lia.
Qed.

Ltac bool_props :=
  repeat match goal with
    | Hb : negb _ = true |- _ => apply negb_true_iff in Hb
    | Hb : negb _ = false |- _ => apply negb_false_iff in Hb
    end;
  repeat match goal with
    | Hb : (_ =? _) = true |- _ => apply Z.eqb_eq in Hb
    | Hb : (_ =? _) = false |- _ => apply Z.eqb_neq in Hb
    | Hb : (_ <? _) = true |- _ => apply Z.ltb_lt in Hb
    | Hb : (_ <? _) = false |- _ => apply Z.ltb_ge in Hb
    | Hb : _ && _ = false |- _ => apply two_values in Hb
    end.

Ltac probe_config Hcfg :=
  let Ha := fresh in let Hf := fresh in let Hp := fresh in let Hl := fresh in
  let Hn := fresh in let Hx := fresh in let Hcr := fresh in let Hcf := fresh in
  let Hsr := fresh in let Hrg := fresh in let Hgp := fresh in
  destruct Hcfg as (Ha & Hf & Hp & Hl & Hn & Hx & Hcr & Hcf & Hsr & Hrg & Hgp);
  unfold imx415_probe; rewrite Ha, Hf, Hp, Hx, Hcr, Hsr, Hgp;
  match goal with |- context [nr_of_link_frequencies ?e =? 0] =>
    replace (nr_of_link_frequencies e =? 0) with false
      by (symmetry; apply Z.eqb_neq; exact Hn);
    replace (regulators_get_ret e <? 0) with false
      by (symmetry; apply Z.ltb_ge; exact Hrg);
    replace (negb (num_data_lanes e =? 2) && negb (num_data_lanes e =? 4)) with false
      by (destruct Hl as [Hl | Hl]; rewrite Hl; reflexivity);
    replace (negb (clock_frequency e =? 37125000)
             && negb (clock_frequency e =? 74250000)) with false
      by (destruct Hcf as [Hcf | Hcf]; rewrite Hcf; reflexivity)
  end;
  cbn [negb Z.eqb andb].



(** X22. A description with a lane count other than 2 or 4, with no link
    frequency, or with an external clock other than 37.125 and 74.25 MHz
    makes the probe fail with no session, and this before the hardware is
    touched: the board, the bus included, is as it was, and no control
    handler or mutex is left behind. *)
Theorem imx415_probe_rejects_config e p :
  (num_data_lanes e <> 2 /\ num_data_lanes e <> 4)
  \/ nr_of_link_frequencies e = 0
  \/ (clock_frequency e <> 37125000 /\ clock_frequency e <> 74250000) ->
  exists p' ret,
    imx415_probe e p = (p', ret, None) /\ ret <> 0 /\
    brd p' = brd p /\ handlers p' = handlers p /\ mutexes p' = mutexes p.
Proof.
  intros Hbad. unfold imx415_probe.
  repeat match goal with
    | |- context [if ?b then _ else _] =>
        destruct b eqn:?;
        [ bool_props; eexists _, _; (split; [reflexivity|]);
          cbn; repeat apply conj; try reflexivity;
          unfold ENOMEM, EINVAL; lia | ]
    end.
  all: bool_props; exfalso; intuition lia.
Qed.

Lemma imx415_probe_rejects_config_witness :
  let e := mkProbeEnv true true 0 3 1 0 0 37125000 0 0 0 0 0 0 in
  let p := fresh_platform quiet in
  (num_data_lanes e <> 2 /\ num_data_lanes e <> 4) /\
  exists p' ret,
    imx415_probe e p = (p', ret, None) /\ ret <> 0 /\
    brd p' = brd p /\ handlers p' = handlers p /\ mutexes p' = mutexes p.
Proof.
  split; [split; discriminate|].
  apply (imx415_probe_rejects_config
           (mkProbeEnv true true 0 3 1 0 0 37125000 0 0 0 0 0 0)
           (fresh_platform quiet)).
  left. split; discriminate.
Defined.

(** X23. When the sensor has been powered and its lanes configured but the
    identification fails, the probe returns the I/O error with everything
    given back: clock and supplies are enabled as often as before, the reset
    line is released, and no control handler, mutex or media entity is left
    behind; the parsed endpoint has been freed once. *)
Theorem imx415_probe_identify_failure e p :
  let s := imx415_probe_session (num_data_lanes e) in
  config_ok e -> ctrls_error e = 0 ->
  clk_ret (brd p) = 0 -> supplies_ret (brd p) = 0 ->
  snd (imx415_set_data_lanes s (io (brd p))) = 0 ->
  snd (imx415_identify_module s (fst (imx415_set_data_lanes s (io (brd p))))) <> 0 ->
  exists p',
    imx415_probe e p = (p', - EIO, None) /\
    clk_on (brd p') = clk_on (brd p) /\ supplies_on (brd p') = supplies_on (brd p) /\
    rst_line (brd p') = 0 /\
    handlers p' = handlers p /\ mutexes p' = mutexes p /\
    entities p' = entities p /\ endpoint_frees p' = endpoint_frees p + 1.
Proof.
  intros s Hcfg Hctrl Hc Hs Hlane Hid. subst s.
  probe_config Hcfg. rewrite Hctrl. cbn [negb Z.eqb brd].
  unfold imx415_power_on. rewrite Hc, Hs. cbn [negb Z.eqb].
  destruct (imx415_set_data_lanes _ (io (brd p))) as [w1 r1].
  cbn [fst snd] in Hlane, Hid. subst r1. cbn [Z.ltb Z.compare io].
  destruct (imx415_identify_module _ w1) as [w2 r2] eqn:Eid.
  cbn [snd] in Hid.
  replace (r2 =? 0) with false by (symmetry; apply Z.eqb_neq; exact Hid).
  cbn [negb].
  assert (Hr2 : r2 = - EIO).
  { unfold imx415_identify_module in Eid. rewrite imx415_read_reg_08bit in Eid.
    destruct (next_reply w1) as [data|]; cbn [write_code negb Z.eqb Z.opp EIO] in Eid.
    - destruct (negb (data mod 2 ^ 8 =? IMX415_CHIP_ID));
        injection Eid as _ <-; [reflexivity | contradiction].
    - unfold EIO in *. cbn in Eid. injection Eid as _ <-. reflexivity. }
  subst r2. eexists. split; [reflexivity|].
  cbn. repeat apply conj; try reflexivity; lia.
Qed.

Lemma imx415_probe_identify_failure_witness :
  let p := fresh_platform (mkWorld [] [Ack 0; Ack 3; Ack 0x55] [] 0) in
  let s := imx415_probe_session (num_data_lanes good_description) in
  config_ok good_description /\ ctrls_error good_description = 0 /\
  clk_ret (brd p) = 0 /\ supplies_ret (brd p) = 0 /\
  snd (imx415_set_data_lanes s (io (brd p))) = 0 /\
  snd (imx415_identify_module s (fst (imx415_set_data_lanes s (io (brd p))))) <> 0 /\
  exists p',
    imx415_probe good_description p = (p', - EIO, None) /\
    clk_on (brd p') = clk_on (brd p) /\ supplies_on (brd p') = supplies_on (brd p) /\
    rst_line (brd p') = 0 /\
    handlers p' = handlers p /\ mutexes p' = mutexes p /\
    entities p' = entities p /\ endpoint_frees p' = endpoint_frees p + 1.
Proof.
  assert (Hcfg : config_ok good_description).
  { unfold config_ok, good_description. cbn.
    repeat apply conj; try reflexivity; try discriminate; auto. }
  split; [exact Hcfg|]. split; [reflexivity|]. split; [reflexivity|].
  split; [reflexivity|]. split; [reflexivity|]. split; [discriminate|].
  apply (imx415_probe_identify_failure good_description
           (fresh_platform (mkWorld [] [Ack 0; Ack 3; Ack 0x55] [] 0)) Hcfg);
    try reflexivity.
  discriminate.
Defined.

(** X24. When the power-on fails during the probe, the probe returns its
    error having freed the parsed endpoint only: the control handler and the
    mutex created just before stay behind. *)
Theorem imx415_probe_power_failure e p :
  let s := imx415_probe_session (num_data_lanes e) in
  config_ok e -> ctrls_error e = 0 ->
  snd (imx415_power_on s (brd p)) < 0 ->
  exists p',
    imx415_probe e p = (p', snd (imx415_power_on s (brd p)), None) /\
    brd p' = fst (imx415_power_on s (brd p)) /\
    handlers p' = handlers p + 1 /\ mutexes p' = mutexes p + 1 /\
    endpoint_frees p' = endpoint_frees p + 1.
Proof.
  intros s Hcfg Hctrl Hfail. subst s.
  probe_config Hcfg. rewrite Hctrl. cbn [negb Z.eqb brd].
  destruct (imx415_power_on _ (brd p)) as [b2 r2]. cbn [fst snd] in *.
  replace (r2 <? 0) with true by (symmetry; apply Z.ltb_lt; exact Hfail).
  eexists. split; [reflexivity|]. cbn. repeat apply conj; reflexivity.
Qed.

Lemma imx415_probe_power_failure_witness :
  let p := fresh_platform (mkWorld [] [Nack] [] 0) in
  let s := imx415_probe_session (num_data_lanes good_description) in
  config_ok good_description /\ ctrls_error good_description = 0 /\
  snd (imx415_power_on s (brd p)) < 0 /\
  exists p',
    imx415_probe good_description p = (p', snd (imx415_power_on s (brd p)), None) /\
    brd p' = fst (imx415_power_on s (brd p)) /\
    handlers p' = handlers p + 1 /\ mutexes p' = mutexes p + 1 /\
    endpoint_frees p' = endpoint_frees p + 1.
Proof.
  assert (Hcfg : config_ok good_description).
  { unfold config_ok, good_description. cbn.
    repeat apply conj; try reflexivity; try discriminate; auto. }
  split; [exact Hcfg|]. split; [reflexivity|]. split; [reflexivity|].
  apply (imx415_probe_power_failure good_description
           (fresh_platform (mkWorld [] [Nack] [] 0)) Hcfg); reflexivity.
Defined.

(** X25. When the initialisation of the media pads fails, after the sensor
    has been powered and identified, the probe releases the control handler
    and the mutex but does not power the sensor off: clock and supplies stay
    enabled and the reset line stays asserted. *)
Theorem imx415_probe_pads_failure e p :
  let s := imx415_probe_session (num_data_lanes e) in
  config_ok e -> ctrls_error e = 0 ->
  clk_ret (brd p) = 0 -> supplies_ret (brd p) = 0 ->
  snd (imx415_set_data_lanes s (io (brd p))) = 0 ->
  snd (imx415_identify_module s (fst (imx415_set_data_lanes s (io (brd p))))) = 0 ->
  pads_init_ret e < 0 ->
  exists p',
    imx415_probe e p = (p', pads_init_ret e, None) /\
    clk_on (brd p') = clk_on (brd p) + 1 /\
    supplies_on (brd p') = supplies_on (brd p) + 1 /\
    rst_line (brd p') = 1 /\
    handlers p' = handlers p /\ mutexes p' = mutexes p /\
    endpoint_frees p' = endpoint_frees p + 1.
Proof.
  intros s Hcfg Hctrl Hc Hs Hlane Hid Hpads. subst s.
  probe_config Hcfg. rewrite Hctrl. cbn [negb Z.eqb brd].
  unfold imx415_power_on. rewrite Hc, Hs. cbn [negb Z.eqb].
  destruct (imx415_set_data_lanes _ (io (brd p))) as [w1 r1].
  cbn [fst snd] in Hlane, Hid. subst r1. cbn [Z.ltb Z.compare io].
  destruct (imx415_identify_module _ w1) as [w2 r2].
  cbn [snd] in Hid. subst r2. cbn [negb Z.eqb].
  replace (pads_init_ret e <? 0) with true by (symmetry; apply Z.ltb_lt; exact Hpads).
  eexists. split; [reflexivity|].
  cbn. repeat apply conj; try reflexivity; lia.
Qed.

Lemma imx415_probe_pads_failure_witness :
  let e := mkProbeEnv true true 0 4 1 0 0 37125000 0 0 0 0 (-12) 0 in
  let p := fresh_platform (mkWorld [] [Ack 0; Ack 3; Ack 0xE0] [] 0) in
  let s := imx415_probe_session (num_data_lanes e) in
  config_ok e /\ ctrls_error e = 0 /\
  clk_ret (brd p) = 0 /\ supplies_ret (brd p) = 0 /\
  snd (imx415_set_data_lanes s (io (brd p))) = 0 /\
  snd (imx415_identify_module s (fst (imx415_set_data_lanes s (io (brd p))))) = 0 /\
  pads_init_ret e < 0 /\
  exists p',
    imx415_probe e p = (p', pads_init_ret e, None) /\
    clk_on (brd p') = clk_on (brd p) + 1 /\
    supplies_on (brd p') = supplies_on (brd p) + 1 /\
    rst_line (brd p') = 1 /\
    handlers p' = handlers p /\ mutexes p' = mutexes p /\
    endpoint_frees p' = endpoint_frees p + 1.
Proof.
  assert (Hcfg : config_ok (mkProbeEnv true true 0 4 1 0 0 37125000 0 0 0 0 (-12) 0)).
  { unfold config_ok. cbn.
    repeat apply conj; try reflexivity; try discriminate; auto. }
  split; [exact Hcfg|]. repeat (split; [reflexivity|]).
  apply (imx415_probe_pads_failure
           (mkProbeEnv true true 0 4 1 0 0 37125000 0 0 0 0 (-12) 0)
           (fresh_platform (mkWorld [] [Ack 0; Ack 3; Ack 0xE0] [] 0)) Hcfg);
    reflexivity.
Defined.

(** X26. Removing the device after a successful probe, while it is not
    runtime-suspended, returns 0 and gives back all the probe acquired:
    clock and supplies are enabled as often as before the probe, the reset
    line is released, no control handler, mutex or media entity is left and
    the sub-device is unregistered.  The removal puts nothing on the bus; in
    particular it does not put the sensor in standby first. *)
Theorem imx415_probe_then_remove e p p1 ret s s' :
  clk_ret (brd p) <= 0 -> supplies_ret (brd p) <= 0 ->
  imx415_probe e p = (p1, ret, Some s) ->
  exists p2,
    imx415_remove false s' p1 = (p2, 0) /\
    io (brd p2) = io (brd p1) /\
    clk_on (brd p2) = clk_on (brd p) /\ supplies_on (brd p2) = supplies_on (brd p) /\
    rst_line (brd p2) = 0 /\
    handlers p2 = handlers p /\ mutexes p2 = mutexes p /\ entities p2 = entities p /\
    registered p2 = false /\ rpm_enabled p2 = false.
Proof.
  intros Hc Hs H.
  destruct (imx415_probe_some e p p1 ret s Hc Hs H)
    as (_ & _ & _ & _ & _ & _ & _ & Hclk & Hsup & _ & _ & Hh & Hm & He & _).
  unfold imx415_remove, imx415_power_off. cbn [negb fst brd].
  eexists. split; [reflexivity|].
  cbn. repeat apply conj; try reflexivity; lia.
Qed.

Lemma imx415_probe_then_remove_witness :
  let p := fresh_platform (mkWorld [] [Ack 0; Ack 3; Ack 0xE0] [] 0) in
  clk_ret (brd p) <= 0 /\ supplies_ret (brd p) <= 0 /\
  exists p1 p2,
    imx415_probe good_description p = (p1, 0, Some (imx415_probe_session 4)) /\
    imx415_remove false (set_streaming true (imx415_probe_session 4)) p1 = (p2, 0) /\
    io (brd p2) = io (brd p1) /\ clk_on (brd p2) = clk_on (brd p).
Proof.
  split; [discriminate|]. split; [discriminate|].
  assert (Hrun : exists p1,
             imx415_probe good_description
               (fresh_platform (mkWorld [] [Ack 0; Ack 3; Ack 0xE0] [] 0))
             = (p1, 0, Some (imx415_probe_session 4)))
    by (eexists; vm_compute; reflexivity).
  destruct Hrun as [p1 Hrun].
  destruct (imx415_probe_then_remove good_description
              (fresh_platform (mkWorld [] [Ack 0; Ack 3; Ack 0xE0] [] 0))
              p1 0 (imx415_probe_session 4)
              (set_streaming true (imx415_probe_session 4))
              ltac:(discriminate) ltac:(discriminate) Hrun)
    as (p2 & Hrem & Hio & Hclk & _).
  exists p1, p2. repeat apply conj; assumption.
Defined.

(** ** What the queries answer *)

(** X27. In every state the driver can reach, the active format query
    answers 3864x2192 in the 10-bit format, the code enumeration answers
    that format code at index 0 and the invalid-argument error, with the
    caller's code untouched, at every other index, and the frame-interval
    query answers 10000/300000. *)
Theorem imx415_queries_describe_the_mode s w :
  reachable (s, w) ->
  (forall api try_fmt old,
     imx415_get_fmt api V4L2_SUBDEV_FORMAT_ACTIVE try_fmt old s = (default_fmt, 0)) /\
  (forall old, imx415_enum_mbus_code 0 old s = (MEDIA_BUS_FMT_SGBRG10_1X10, 0)) /\
  (forall index old, index <> 0 ->
     imx415_enum_mbus_code index old s = (old, - EINVAL)) /\
  imx415_g_frame_interval s = ((10000, 300000), 0).
Proof.
  intros Hr. apply reachable_session_inv in Hr. destruct Hr as (_ & Hmode & _).
  cbn [fst] in Hmode.
  unfold imx415_get_fmt, imx415_enum_mbus_code, imx415_g_frame_interval.
  rewrite Hmode. repeat apply conj; try reflexivity.
  intros index old Hi.
  replace (index =? 0) with false by (symmetry; apply Z.eqb_neq; exact Hi).
  reflexivity.
Qed.

Lemma imx415_queries_describe_the_mode_witness :
  reachable (fst (imx415_set_ctrl V4L2_CID_VBLANK 200 (imx415_probe_session 2, quiet)))
  /\ imx415_g_frame_interval
       (fst (fst (imx415_set_ctrl V4L2_CID_VBLANK 200 (imx415_probe_session 2, quiet))))
     = ((10000, 300000), 0).
Proof.
  assert (Hr : reachable (fst (imx415_set_ctrl V4L2_CID_VBLANK 200
                                 (imx415_probe_session 2, quiet))))
    by (apply reach_set_ctrl, reach_probe).
  split; [exact Hr|].
  destruct (fst (imx415_set_ctrl V4L2_CID_VBLANK 200 (imx415_probe_session 2, quiet)))
    as [s w] eqn:E.
  exact (proj2 (proj2 (proj2 (imx415_queries_describe_the_mode s w Hr)))).
Defined.
